(** * ByteCallMCP: the Byteflow call-manager tool server (src/byteflowcall.py)

    A shallow embedding of the module: the helper [_make_request], the eight
    tools registered on the server, and the properties of the DID fallback
    chain and of the call-initiation parameter resolution.

    Python values are an inductive type, the process state (environment,
    module globals, the requests handed to the HTTP library, the log) is a
    record threaded through a state-and-exception monad, and the remote
    service is an arbitrary function of the request history. *)

From Stdlib Require Import List String Ascii ZArith Bool Lia.
From Stdlib Require Import DecimalString.
Import ListNotations.
Open Scope string_scope.
Open Scope Z_scope.
Set Warnings "-register-all".

(** ** Python values *)

(** What [response.json()] can decode and what the tools hand around.  A
    float is carried by its [repr] text (the shortest text that reads back
    to the same double, which is also its [str]); a dict is its item list in
    insertion order, looked up by first match. *)
Inductive pyval : Type :=
| PNone
| PBool (b : bool)
| PInt (z : Z)
| PFloat (repr : string)
| PStr (s : string)
| PList (l : list pyval)
| PDict (d : list (string * pyval)).

Module Py.

(** [str(n)] for an int. *)
Definition str_int (z : Z) : string := NilZero.string_of_int (Z.to_int z).

(** [key in d] and [d.get(key)]. *)
Fixpoint get {V : Type} (key : string) (d : list (string * V)) : option V :=
  match d with
  | [] => None
  | (k, v) :: d' => if String.eqb k key then Some v else get key d'
  end.

Definition contains {V : Type} (key : string) (d : list (string * V)) : bool :=
  match get key d with Some _ => true | None => false end.

(** [d[key] = v]: replace in place, or append a new item. *)
Fixpoint set {V : Type} (key : string) (v : V) (d : list (string * V))
  : list (string * V) :=
  match d with
  | [] => [(key, v)]
  | (k, x) :: d' =>
      if String.eqb k key then (k, v) :: d' else (k, x) :: set key v d'
  end.

Definition keys {V : Type} (d : list (string * V)) : list string :=
  map fst d.

(** Truth value of an object, as [not x], [x or y] and [if x] test it. *)
Definition truthy (v : pyval) : bool :=
  match v with
  | PNone => false
  | PBool b => b
  | PInt z => negb (z =? 0)
  | PFloat r => negb (String.eqb r "0.0" || String.eqb r "-0.0")
  | PStr s => negb (String.eqb s "")
  | PList l => match l with [] => false | _ => true end
  | PDict d => match d with [] => false | _ => true end
  end.

(** [a or b]. *)
Definition or (a b : pyval) : pyval := if truthy a then a else b.

(** An [Optional[str]] field as an object. *)
Definition of_option (o : option string) : pyval :=
  match o with Some s => PStr s | None => PNone end.

Definition isinstance_dict (v : pyval) : bool :=
  match v with PDict _ => true | _ => false end.


(** [repr] of a str whose text is ASCII: the quote is ["] when the text has
    a ['] and no ["], and ['] otherwise; backslash, the quote, tab, newline
    and carriage return are escaped, other control characters print as
    [\xNN], every other character as it is.  Text with a byte from 128 up
    encodes non-ASCII characters, which [repr] keeps or escapes by their
    Unicode properties: that part is taken as the function [repr_unicode]
    wherever [repr] is used. *)
Definition hex_digit (n : N) : ascii :=
  ascii_of_N (if (n <? 10)%N then 48 + n else 87 + n)%N.

Fixpoint has_char (c : ascii) (s : string) : bool :=
  match s with
  | EmptyString => false
  | String x s' => Ascii.eqb x c || has_char c s'
  end.

Definition backslash : ascii := ascii_of_N 92.
Definition squote : ascii := ascii_of_N 39.
Definition dquote : ascii := ascii_of_N 34.

Definition escape_char (quote c : ascii) : string :=
  let n := N_of_ascii c in
  if Ascii.eqb c backslash then String backslash (String backslash "")
  else if Ascii.eqb c quote then String backslash (String quote "")
  else if (n =? 9)%N then String backslash "t"
  else if (n =? 10)%N then String backslash "n"
  else if (n =? 13)%N then String backslash "r"
  else if ((n <? 32) || (n =? 127))%N then
    String backslash
      (String "x" (String (hex_digit (n / 16)) (String (hex_digit (n mod 16)) "")))
  else String c "".

Fixpoint escape (quote : ascii) (s : string) : string :=
  match s with
  | EmptyString => ""
  | String c s' => escape_char quote c ++ escape quote s'
  end.

Fixpoint is_ascii (s : string) : bool :=
  match s with
  | EmptyString => true
  | String c s' => (N_of_ascii c <? 128)%N && is_ascii s'
  end.

Definition repr_ascii (s : string) : string :=
  let quote :=
    if has_char squote s && negb (has_char dquote s) then dquote else squote in
  String quote (escape quote s ++ String quote "").

Definition repr_str (repr_unicode : string -> string) (s : string) : string :=
  if is_ascii s then repr_ascii s else repr_unicode s.

(** [repr(v)]. *)
Fixpoint repr (repr_unicode : string -> string) (v : pyval) : string :=
  match v with
  | PNone => "None"
  | PBool true => "True"
  | PBool false => "False"
  | PInt z => str_int z
  | PFloat r => r
  | PStr s => repr_str repr_unicode s
  | PList l => "[" ++ String.concat ", " (map (repr repr_unicode) l) ++ "]"
  | PDict d =>
      "{" ++ String.concat ", "
               (map (fun kv => repr_str repr_unicode (fst kv) ++ ": "
                                 ++ repr repr_unicode (snd kv)) d)
          ++ "}"
  end.

(** [str(v)]: a str is itself, everything else prints as its [repr]. *)
Definition str (repr_unicode : string -> string) (v : pyval) : string :=
  match v with
  | PStr s => s
  | _ => repr repr_unicode v
  end.

(** An optional text inside an f-string: [None] prints as ["None"]. *)
Definition str_option (o : option string) : string :=
  match o with Some s => s | None => "None" end.

End Py.

(** ** Exceptions, requests and the process state *)

(** The exception classes the module tells apart.  [HTTPError] is an
    [HTTPError] whose [response] is set, as [raise_for_status] builds it,
    with the status code and body text of that response;
    [HTTPErrorNoResponse] is an [HTTPError] whose [response] is [None];
    [ConnectTimeout] derives from both [ConnectionError] and [Timeout];
    [OtherException] is any further subclass of [Exception], carried by its
    [str]. *)
Inductive exn : Type :=
| HTTPError (status_code : Z) (text : string) (msg : string)
| HTTPErrorNoResponse (msg : string)
| ConnectionError (msg : string)
| ConnectTimeout (msg : string)
| Timeout (msg : string)
| RequestException (msg : string)
| OtherException (msg : string)
| ByteflowAPIError (message : string) (status_code : option Z)
                   (response_text : option string).

(** [str(e)], the text an f-string prints for [{e}]. *)
Definition str_exn (e : exn) : string :=
  match e with
  | HTTPError _ _ m | HTTPErrorNoResponse m | ConnectionError m
  | ConnectTimeout m | Timeout m | RequestException m | OtherException m => m
  | ByteflowAPIError m _ _ => m
  end.

(** The arguments of one [requests.request] call. *)
Record request : Type := mkRequest {
  r_method : string;
  r_url : string;
  r_headers : list (string * string);
  r_params : option pyval;
  r_json : option pyval;
  r_timeout : Z
}.

Inductive result (A : Type) : Type :=
| Ret (a : A)
| Raise (e : exn).
Arguments Ret {A} a.
Arguments Raise {A} e.

(** [os.environ], the two module globals read at import, the requests issued
    so far (oldest first) and the messages logged. *)
Record world : Type := mkWorld {
  environ : list (string * string);
  BYTEFLOW_API_KEY : string;
  BASE_URL : string;
  sent : list request;
  log : list string
}.

Definition HEADERS : list (string * string) :=
  [("Content-Type", "application/json")].

(** Lines 13-21: the import-time reads of the environment. *)
Definition load_module (env : list (string * string)) : world :=
  let key := Py.of_option (Py.get "BYTEFLOW_API_KEY" env) in
  let env' :=
    if Py.truthy key then env
    else Py.set "BYTEFLOW_API_KEY" "dummy_key_for_tests" env in
  {| environ := env';
     BYTEFLOW_API_KEY :=
       match Py.get "BYTEFLOW_API_KEY" env with
       | Some k => if Py.truthy key then k else "dummy_key_for_tests"
       | None => "dummy_key_for_tests"
       end;
     BASE_URL :=
       match Py.get "BYTEFLOW_API_BASE_URL" env' with
       | Some u => u
       | None => "https://apidoc.byteflow.bot"
       end;
     sent := [];
     log := [] |}.

(** ** The monad of the module's functions *)

Definition M (A : Type) : Type := world -> result A * world.

Definition ret {A : Type} (a : A) : M A := fun w => (Ret a, w).

Definition raise {A : Type} (e : exn) : M A := fun w => (Raise e, w).

Definition bind {A B : Type} (m : M A) (k : A -> M B) : M B :=
  fun w =>
    match m w with
    | (Ret a, w') => k a w'
    | (Raise e, w') => (Raise e, w')
    end.

Declare Scope py_scope.
Delimit Scope py_scope with py.
Notation "x <- m ;; k" := (bind m (fun x => k))
  (at level 61, m at next level, right associativity) : py_scope.
Notation "m ;; k" := (bind m (fun _ => k))
  (at level 61, right associativity) : py_scope.
Open Scope py_scope.

(** [try: body except ...]: [handlers e] is the body of the first clause
    matching [e], or [None] when no clause matches.  What a clause body
    raises is not offered to the clauses of the same statement. *)
Definition try_except {A : Type} (body : M A) (handlers : exn -> option (M A))
  : M A :=
  fun w =>
    match body w with
    | (Ret a, w') => (Ret a, w')
    | (Raise e, w') =>
        match handlers e with
        | Some h => h w'
        | None => (Raise e, w')
        end
    end.

(** [os.getenv(name, default)], read from the state at the time of the call. *)
Definition os_getenv (name default : string) : M string :=
  fun w =>
    (Ret match Py.get name (environ w) with Some v => v | None => default end, w).

Definition get_BASE_URL : M string := fun w => (Ret (BASE_URL w), w).

(** The state after one more request, and after one more log message. *)
Definition record_request (req : request) (w : world) : world :=
  {| environ := environ w; BYTEFLOW_API_KEY := BYTEFLOW_API_KEY w;
     BASE_URL := BASE_URL w; sent := sent w ++ [req]; log := log w |}.

Definition record_log (msg : string) (w : world) : world :=
  {| environ := environ w; BYTEFLOW_API_KEY := BYTEFLOW_API_KEY w;
     BASE_URL := BASE_URL w; sent := sent w; log := log w ++ [msg] |}.

(** [logger.error(msg)] and [logger.exception(msg)]. *)
Definition logger_error (msg : string) : M unit :=
  fun w => (Ret tt, record_log msg w).

Definition logger_exception (msg : string) : M unit := logger_error msg.

(** ** Tool inputs *)

Record CallIdInput : Type := mkCallIdInput {
  call_id : string
}.

Record StartCallInput : Type := mkStartCallInput {
  to_number : option string;
  from_number : option string;
  destination : option string;
  did_number : option string;
  ai_client : option string;
  script_id : option string;
  metadata : option (list (string * pyval));
  system_prompt : string;
  greeting_text : string
}.

(** Lines 288-292 of [start_new_call]: the five locals computed from the
    input with [or]. *)
Definition resolve_destination (input : StartCallInput) : pyval :=
  Py.or (Py.of_option (destination input)) (Py.of_option (to_number input)).

Definition resolve_did_number (input : StartCallInput) : pyval :=
  Py.or (Py.of_option (did_number input)) (Py.of_option (from_number input)).

Definition resolve_ai_client (input : StartCallInput) : pyval :=
  Py.or (Py.of_option (ai_client input)) (PStr "client1").

Definition resolve_system_prompt (input : StartCallInput) : pyval :=
  Py.or (PStr (system_prompt input))
        (PStr "You are an AI assistant helping with a phone call.").

Definition resolve_greeting_text (input : StartCallInput) : pyval :=
  Py.or (PStr (greeting_text input))
        (PStr "Hello! This is an automated call.").

(** The [AttributeError] raised by reading [status_code] off a response that
    is [None]. *)
Definition attribute_error : exn :=
  OtherException "'NoneType' object has no attribute 'status_code'".

(** [e.status_code == n] on an optional status code. *)
Definition status_is (status_code : option Z) (n : Z) : bool :=
  match status_code with
  | Some c => c =? n
  | None => false
  end.

(** ** The startup block (lines 365-370) *)

(** The arguments of [mcp.run]. *)
Record listener : Type := mkListener {
  l_transport : string;
  l_host : string;
  l_port : Z;
  l_path : string
}.

(** [logger.info(msg)]; the logging level set on line 28 lets it through. *)
Definition logger_info (msg : string) : M unit :=
  fun w => (Ret tt, record_log msg w).

(** The block under [if __name__ == "__main__"], up to the call of
    [mcp.run], whose arguments are the result.  [int] is the builtin applied
    to the text of MCP_SERVER_PORT: it returns the number or raises. *)
Definition main (int : string -> result Z) : M listener :=
  port <- (fun w =>
             match Py.get "MCP_SERVER_PORT" (environ w) with
             | Some text => (int text, w)
             | None => (Ret 8000, w)
             end) ;;
  logger_info ("Starting Byteflow MCP Server on port " ++ Py.str_int port) ;;
  ret (mkListener "http" "0.0.0.0" 8002 "/mcp").

(** ** Concrete services, states and inputs *)

Module Scenario.

(** A process started with an empty environment. *)
Definition world0 : world := load_module [].

(** A service that accepts every request. *)
Definition accepts (hist : list request) (req : request) : result pyval :=
  Ret (PDict [("call_id", PStr "c1"); ("status", PStr "initiated")]).

(** A service whose first answer is a 500 and which then lists one DID. *)
Definition second_succeeds (hist : list request) (req : request)
  : result pyval :=
  match hist with
  | [] => Raise (HTTPError 500 "boom" "500 Server Error")
  | _ => Ret (PList [PStr "+15551112222"])
  end.

(** A service that refuses every connection; the message counts the
    requests seen before. *)
Definition always_down (hist : list request) (req : request)
  : result pyval :=
  Raise (ConnectionError
           ("refused after " ++ Py.str_int (Z.of_nat (List.length hist)))).

(** A service answering the first request with the given lookup response
    and accepting the rest. *)
Definition lookup_returns (resp : pyval) (hist : list request)
           (req : request) : result pyval :=
  match hist with
  | [] => Ret resp
  | _ => accepts hist req
  end.

(** Lookup responses: a dict listing one DID as an object, one listing it as
    a plain string, and a bare list that is no dict at all. *)
Definition lists_did_object : list request -> request -> result pyval :=
  lookup_returns
    (PDict [("dids", PList [PDict [("did_number", PStr "+15551112222")]])]).

Definition lists_did_string : list request -> request -> result pyval :=
  lookup_returns (PDict [("dids", PList [PStr "+1555..."])]).

Definition bare_list : list request -> request -> result pyval :=
  lookup_returns (PList [PStr "+1555..."]).

(** A service failing the first request and accepting the rest. *)
Definition lookup_fails (hist : list request) (req : request)
  : result pyval :=
  match hist with
  | [] => Raise (Timeout "timed out")
  | _ => accepts hist req
  end.

Definition no_destination : StartCallInput :=
  {| to_number := None; from_number := Some "08000000000";
     destination := None; did_number := None; ai_client := None;
     script_id := None; metadata := None;
     system_prompt := "p"; greeting_text := "g" |}.

Definition to_number_only : StartCallInput :=
  {| to_number := Some "08069256212"; from_number := None;
     destination := None; did_number := None; ai_client := None;
     script_id := None; metadata := None;
     system_prompt := "p"; greeting_text := "g" |}.

Definition with_script : StartCallInput :=
  {| to_number := None; from_number := None;
     destination := Some "08069256212"; did_number := Some "08000000000";
     ai_client := Some "client2";
     script_id := Some "s-1"; metadata := None;
     system_prompt := "p"; greeting_text := "g" |}.

(** Every text field given, and empty. *)
Definition empty_texts : StartCallInput :=
  {| to_number := None; from_number := None;
     destination := Some "08069256212"; did_number := Some "08000000000";
     ai_client := Some "";
     script_id := None; metadata := None;
     system_prompt := ""; greeting_text := "" |}.

(** Direct fields and aliases all given, the direct fields not empty. *)
Definition both_given : StartCallInput :=
  {| to_number := Some "08011111111"; from_number := Some "08022222222";
     destination := Some "08069256212"; did_number := Some "08000000000";
     ai_client := None; script_id := None; metadata := None;
     system_prompt := "p"; greeting_text := "g" |}.

(** Direct fields and aliases all given, the direct fields empty. *)
Definition empty_direct : StartCallInput :=
  {| to_number := Some "08011111111"; from_number := Some "08022222222";
     destination := Some ""; did_number := Some "";
     ai_client := None; script_id := None; metadata := None;
     system_prompt := "p"; greeting_text := "g" |}.

(** A service that knows no call: every request gets a 404. *)
Definition not_found (hist : list request) (req : request) : result pyval :=
  Raise (HTTPError 404 "no such call" "404 Client Error").

(** A service that rejects every request as unprocessable. *)
Definition rejects (hist : list request) (req : request) : result pyval :=
  Raise (HTTPError 422 "bad number" "422 Client Error").

Definition some_call : CallIdInput := {| call_id := "c1" |}.

(** The destination given directly, with a DID, and no [to_number]. *)
Definition direct_only : StartCallInput :=
  {| to_number := None; from_number := None;
     destination := Some "08069256212"; did_number := Some "08000000000";
     ai_client := None; script_id := None; metadata := None;
     system_prompt := "p"; greeting_text := "g" |}.

(** A builtin [int] that reads nothing. *)
Definition int_fails (text : string) : result Z :=
  Raise (OtherException ("invalid literal for int() with base 10: "
                           ++ Py.repr_ascii text)).

(** A builtin [int] that reads every text as 9000. *)
Definition int_9000 (text : string) : result Z := Ret 9000.


(** A service that refuses the first connection and whose HTTP layer then
    raises an [HTTPError] that carries no response. *)
Definition fallback_without_response (hist : list request) (req : request)
  : result pyval :=
  match hist with
  | [] => Raise (ConnectionError "refused")
  | _ => Raise (HTTPErrorNoResponse "502 Server Error")
  end.

(** A service whose HTTP layer raises such an error on every request. *)
Definition without_response (hist : list request) (req : request)
  : result pyval :=
  Raise (HTTPErrorNoResponse "502 Server Error").

(** A service that lists one DID and then rejects the call. *)
Definition lists_then_rejects (hist : list request) (req : request)
  : result pyval :=
  match hist with
  | [] => Ret (PDict [("dids", PList [PStr "+15551112222"])])
  | _ => Raise (HTTPError 422 "bad number" "422 Client Error")
  end.

(** A stand-in for [repr] on non-ASCII text; no text here is of that kind. *)
Definition repr_kept (s : string) : string := s.

End Scenario.

Section Server.

(** The remote service together with the HTTP library: what lines 66-68
    ([requests.request], [raise_for_status], [response.json()]) produce
    for a request, given the requests issued before it: the decoded body,
    or the exception raised. *)
Variable remote : list request -> request -> result pyval.

(** What the builtin [repr] prints for a str with non-ASCII text. *)
Variable repr_unicode : string -> string.

Definition requests_request (req : request) : M pyval :=
  fun w => (remote (sent w) req, record_request req w).

(** *** The request helper (lines 41-84) *)

Definition _make_request (method endpoint : string)
           (params json_data : option pyval) : M pyval :=
  base <- get_BASE_URL ;;
  let url := base ++ endpoint in
  try_except
    (bearer_token <- os_getenv "BYTEFLOW_API_KEY" "dummy_key_for_tests" ;;
     let current_headers :=
       Py.set "X-API-Key" bearer_token
         (Py.set "Authorization" ("Bearer " ++ bearer_token) HEADERS) in
     requests_request
       (mkRequest method url current_headers params json_data 15))
    (fun e =>
       match e with
       | HTTPError status_code text _ =>
           let error_message :=
             "Byteflow API HTTP Error: " ++ Py.str_int status_code
               ++ " - " ++ text in
           Some (logger_error ("API Request failed: " ++ method ++ " " ++ url
                                 ++ " - " ++ error_message) ;;
                 raise (ByteflowAPIError error_message (Some status_code)
                                         (Some text)))
       | HTTPErrorNoResponse _ =>
           (* line 70 reads [e.response.status_code] with [e.response] being
              [None]: the clause itself raises, before anything is logged *)
           Some (raise attribute_error)
       | ConnectionError m | ConnectTimeout m =>
           Some (logger_error ("Byteflow API Connection Error: " ++ m) ;;
                 raise (ByteflowAPIError
                          ("Byteflow API Connection Error: " ++ m) None None))
       | Timeout m =>
           Some (logger_error ("Byteflow API Timeout Error: " ++ m) ;;
                 raise (ByteflowAPIError
                          ("Byteflow API Timeout Error: " ++ m) None None))
       | RequestException m =>
           Some (logger_error
                   ("An unexpected request error occurred with Byteflow API: "
                      ++ m) ;;
                 raise (ByteflowAPIError
                          ("An unexpected request error occurred with Byteflow API: "
                             ++ m) None None))
       | OtherException _ | ByteflowAPIError _ _ _ =>
           Some (logger_exception
                   ("An unexpected error occurred during API request to "
                      ++ url) ;;
                 raise (ByteflowAPIError
                          ("An unexpected error occurred during API request: "
                             ++ str_exn e) None None))
       end).

(** *** The tools (lines 121-362) *)

Definition get_health_status : M pyval :=
  try_except
    (response <- _make_request "GET" "/api/health" None None ;;
     ret response)
    (fun e =>
       match e with
       | ByteflowAPIError message _ _ =>
           Some (logger_error ("Error in get_health_status: " ++ message) ;;
                 ret (PStr ("Failed to get health status: " ++ message)))
       | _ =>
           Some (logger_exception
                   "An unexpected error occurred in get_health_status" ;;
                 ret (PStr ("An unexpected error occurred: " ++ str_exn e)))
       end).

Definition get_configuration : M pyval :=
  try_except
    (response <- _make_request "GET" "/api/config" None None ;;
     ret response)
    (fun e =>
       match e with
       | ByteflowAPIError message _ _ =>
           Some (logger_error ("Error in get_configuration: " ++ message) ;;
                 ret (PStr ("Failed to get configuration: " ++ message)))
       | _ =>
           Some (logger_exception
                   "An unexpected error occurred in get_configuration" ;;
                 ret (PStr ("An unexpected error occurred: " ++ str_exn e)))
       end).

Definition get_call_status (input : CallIdInput) : M pyval :=
  try_except
    (response <- _make_request "GET" ("/api/call/" ++ call_id input)
                               None None ;;
     ret response)
    (fun e =>
       match e with
       | ByteflowAPIError message status_code _ =>
           Some (logger_error ("Error in get_call_status for call_id "
                                 ++ call_id input ++ ": " ++ message) ;;
                 if status_is status_code 404 then
                   ret (PStr ("Call with ID '" ++ call_id input
                                ++ "' not found. Please check the call ID."))
                 else
                   ret (PStr ("Failed to get call status for '"
                                ++ call_id input ++ "': " ++ message)))
       | _ =>
           Some (logger_exception
                   ("An unexpected error occurred in get_call_status for call_id "
                      ++ call_id input) ;;
                 ret (PStr ("An unexpected error occurred: " ++ str_exn e)))
       end).

Definition get_call_transcript (input : CallIdInput) : M pyval :=
  try_except
    (response <- _make_request "GET"
                   ("/api/call/" ++ call_id input ++ "/transcript")
                   None None ;;
     ret response)
    (fun e =>
       match e with
       | ByteflowAPIError message status_code _ =>
           Some (logger_error ("Error in get_call_transcript for call_id "
                                 ++ call_id input ++ ": " ++ message) ;;
                 if status_is status_code 404 then
                   ret (PStr ("Transcript for call ID '" ++ call_id input
                                ++ "' not found or call does not exist. It might not be available yet."))
                 else
                   ret (PStr ("Failed to get call transcript for '"
                                ++ call_id input ++ "': " ++ message)))
       | _ =>
           Some (logger_exception
                   ("An unexpected error occurred in get_call_transcript for call_id "
                      ++ call_id input) ;;
                 ret (PStr ("An unexpected error occurred: " ++ str_exn e)))
       end).

Definition get_active_calls : M pyval :=
  try_except
    (response <- _make_request "GET" "/api/calls/active" None None ;;
     ret response)
    (fun e =>
       match e with
       | ByteflowAPIError message _ _ =>
           Some (logger_error ("Error in get_active_calls: " ++ message) ;;
                 ret (PStr ("Failed to get active calls: " ++ message)))
       | _ =>
           Some (logger_exception
                   "An unexpected error occurred in get_active_calls" ;;
                 ret (PStr ("An unexpected error occurred: " ++ str_exn e)))
       end).

(** The fallbacks run inside the [except ByteflowAPIError] clause of the
    outer [try], so only their own [except ByteflowAPIError] clauses stand
    between them and the caller. *)
Definition list_available_dids : M pyval :=
  try_except
    (response <- _make_request "POST" "/api/validate-and-fetch-dids"
                               None None ;;
     ret response)
    (fun e =>
       match e with
       | ByteflowAPIError message _ _ =>
           Some
             (logger_error
                ("Primary DID fetch failed (/api/validate-and-fetch-dids): "
                   ++ message) ;;
              try_except
                (fallback1 <- _make_request "GET" "/api/did/my-dids"
                                            None None ;;
                 ret fallback1)
                (fun e_fb1 =>
                   match e_fb1 with
                   | ByteflowAPIError message1 _ _ =>
                       Some
                         (logger_error
                            ("Fallback DID fetch failed (/api/did/my-dids): "
                               ++ message1) ;;
                          try_except
                            (fallback2 <- _make_request "GET" "/api/dids"
                                                        None None ;;
                             ret fallback2)
                            (fun e_fb2 =>
                               match e_fb2 with
                               | ByteflowAPIError message2 _ _ =>
                                   Some
                                     (logger_error
                                        ("Error in list_available_dids: "
                                           ++ message2) ;;
                                      ret (PStr
                                             ("Failed to list available DIDs: "
                                                ++ message2)))
                               | _ => None
                               end))
                   | _ => None
                   end))
       | _ =>
           Some (logger_exception
                   "An unexpected error occurred in list_available_dids" ;;
                 ret (PStr ("An unexpected error occurred: " ++ str_exn e)))
       end).

(** Lines 301-303 of [start_new_call]: the DID list of a lookup response,
    empty unless the response is a dict with a list under ["dids"]. *)
Definition dids_of_response (did_resp : pyval) : list pyval :=
  match did_resp with
  | PDict d =>
      match Py.get "dids" d with
      | Some (PList l) => l
      | _ => []
      end
  | _ => []
  end.

(** Line 307: the DID named by an entry of that list. *)
Definition did_of_entry (first_did : pyval) : pyval :=
  match first_did with
  | PDict fd =>
      match Py.get "did_number" fd with
      | Some v => v
      | None => PNone
      end
  | _ => PStr (Py.str repr_unicode first_did)
  end.

(** Lines 297-309: the attempt to pick a DID when none was given.  The
    result is the new value of the local [did_number]. *)
Definition auto_select_did (did_number : pyval) : M pyval :=
  try_except
    (did_resp <- _make_request "POST" "/api/validate-and-fetch-dids"
                               None None ;;
     let dids := dids_of_response did_resp in
     match dids with
     | first_did :: _ => ret (did_of_entry first_did)
     | [] => ret did_number
     end)
    (fun _ => Some (ret did_number)).

(** Lines 314-326: the body of the call-initiation request. *)
Definition build_payload (input : StartCallInput)
           (destination did_number ai_client system_prompt greeting_text : pyval)
  : list (string * pyval) :=
  let payload :=
    [("destination", destination);
     ("did_number", did_number);
     ("ai_client", ai_client);
     ("system_prompt", system_prompt);
     ("greeting_text", greeting_text)] in
  let payload :=
    match script_id input with
    | Some s => Py.set "script_id" (PStr s) payload
    | None => payload
    end in
  match metadata input with
  | Some m => Py.set "metadata" (PDict m) payload
  | None => payload
  end.

Definition start_new_call (input : StartCallInput) : M pyval :=
  try_except
    (let destination := resolve_destination input in
     let did_number := resolve_did_number input in
     let ai_client := resolve_ai_client input in
     let system_prompt := resolve_system_prompt input in
     let greeting_text := resolve_greeting_text input in
     if negb (Py.truthy destination) then
       ret (PStr "Failed to start call due to invalid input: destination/to_number is required.")
     else
       did_number <- (if negb (Py.truthy did_number)
                      then auto_select_did did_number
                      else ret did_number) ;;
       if negb (Py.truthy did_number) then
         ret (PStr "Failed to start call: did_number/from_number is required (no default DID available).")
       else
         let payload :=
           build_payload input destination did_number ai_client
                         system_prompt greeting_text in
         response <- _make_request "POST" "/api/call" None
                                   (Some (PDict payload)) ;;
         ret response)
    (fun e =>
       match e with
       | ByteflowAPIError message status_code response_text =>
           Some (logger_error ("Error in start_new_call to "
                                 ++ Py.str_option (to_number input)
                                 ++ ": " ++ message) ;;
                 if status_is status_code 400 || status_is status_code 422
                 then
                   ret (PStr ("Failed to start call due to invalid input: "
                                ++ Py.str_option response_text
                                ++ ". Please check the provided numbers and parameters."))
                 else
                   ret (PStr ("Failed to start call to '"
                                ++ Py.str_option (to_number input)
                                ++ "': " ++ message)))
       | _ =>
           Some (logger_exception
                   ("An unexpected error occurred in start_new_call to "
                      ++ Py.str_option (to_number input)) ;;
                 ret (PStr ("An unexpected error occurred: " ++ str_exn e)))
       end).

Definition force_disconnect_call (input : CallIdInput) : M pyval :=
  try_except
    (response <- _make_request "POST"
                   ("/api/call/" ++ call_id input ++ "/force-disconnect")
                   None None ;;
     ret response)
    (fun e =>
       match e with
       | ByteflowAPIError message status_code _ =>
           Some (logger_error ("Error in force_disconnect_call for call_id "
                                 ++ call_id input ++ ": " ++ message) ;;
                 if status_is status_code 404 then
                   ret (PStr ("Call with ID '" ++ call_id input
                                ++ "' not found or already disconnected. Cannot force disconnect."))
                 else
                   ret (PStr ("Failed to force disconnect call '"
                                ++ call_id input ++ "': " ++ message)))
       | _ =>
           Some (logger_exception
                   ("An unexpected error occurred in force_disconnect_call for call_id "
                      ++ call_id input) ;;
                 ret (PStr ("An unexpected error occurred: " ++ str_exn e)))
       end).

(** ** Vocabulary of the statements *)

(** The credential a call started in state [w] reads. *)
Definition current_key (w : world) : string :=
  match Py.get "BYTEFLOW_API_KEY" (environ w) with
  | Some v => v
  | None => "dummy_key_for_tests"
  end.

(** The request that [_make_request] hands to the HTTP library. *)
Definition request_of (w : world) (method endpoint : string)
           (params json_data : option pyval) : request :=
  mkRequest method (BASE_URL w ++ endpoint)
            [("Content-Type", "application/json");
             ("Authorization", "Bearer " ++ current_key w);
             ("X-API-Key", current_key w)]
            params json_data 15.

(** The failure is one [_make_request] turns into a [ByteflowAPIError]:
    every class but an [HTTPError] that carries no response. *)
Definition wrapped (e : exn) : bool :=
  match e with
  | HTTPErrorNoResponse _ => false
  | _ => true
  end.

(** The message of the error raised for a failure [e]. *)
Definition api_message (e : exn) : string :=
  match e with
  | HTTPError status_code text _ =>
      "Byteflow API HTTP Error: " ++ Py.str_int status_code ++ " - " ++ text
  | HTTPErrorNoResponse _ => str_exn attribute_error
  | ConnectionError m | ConnectTimeout m =>
      "Byteflow API Connection Error: " ++ m
  | Timeout m => "Byteflow API Timeout Error: " ++ m
  | RequestException m =>
      "An unexpected request error occurred with Byteflow API: " ++ m
  | OtherException _ | ByteflowAPIError _ _ _ =>
      "An unexpected error occurred during API request: " ++ str_exn e
  end.

Definition api_status (e : exn) : option Z :=
  match e with
  | HTTPError status_code _ _ => Some status_code
  | _ => None
  end.

Definition api_text (e : exn) : option string :=
  match e with
  | HTTPError _ text _ => Some text
  | _ => None
  end.

(** The error [_make_request] raises for a failure [e]. *)
Definition api_error (e : exn) : exn :=
  if wrapped e then
    ByteflowAPIError (api_message e) (api_status e) (api_text e)
  else attribute_error.

(** The line logged before that error is raised. *)
Definition api_log (method url : string) (e : exn) : string :=
  match e with
  | HTTPError _ _ _ =>
      "API Request failed: " ++ method ++ " " ++ url ++ " - " ++ api_message e
  | OtherException _ | ByteflowAPIError _ _ _ =>
      "An unexpected error occurred during API request to " ++ url
  | _ => api_message e
  end.

Definition is_api_error (e : exn) : bool :=
  match e with ByteflowAPIError _ _ _ => true | _ => false end.

(** The outcome of one attempt started in state [w]. *)
Definition attempt (w : world) (method endpoint : string)
           (params json_data : option pyval) : result pyval :=
  remote (sent w) (request_of w method endpoint params json_data).

(** The state an attempt leaves behind. *)
Definition after_attempt (w : world) (method endpoint : string)
           (params json_data : option pyval) : world :=
  let req := request_of w method endpoint params json_data in
  match remote (sent w) req with
  | Ret _ => record_request req w
  | Raise e =>
      if wrapped e then
        record_log (api_log method (r_url req) e) (record_request req w)
      else record_request req w
  end.

Definition primary_request (w : world) : request :=
  request_of w "POST" "/api/validate-and-fetch-dids" None None.

Definition fallback1_request (w : world) : request :=
  request_of w "GET" "/api/did/my-dids" None None.

Definition fallback2_request (w : world) : request :=
  request_of w "GET" "/api/dids" None None.

Definition lookup_request (w : world) : request :=
  request_of w "POST" "/api/validate-and-fetch-dids" None None.

Definition call_request (w : world) (payload : list (string * pyval))
  : request :=
  request_of w "POST" "/api/call" None (Some (PDict payload)).

Definition destination_required : string :=
  "Failed to start call due to invalid input: destination/to_number is required.".

Definition did_number_required : string :=
  "Failed to start call: did_number/from_number is required (no default DID available).".

(** The value of the local [did_number] after the auto-selection, from the
    outcome of the lookup. *)
Definition selected_did (did_number : pyval) (outcome : result pyval)
  : pyval :=
  match outcome with
  | Ret did_resp =>
      match dids_of_response did_resp with
      | first_did :: _ => did_of_entry first_did
      | [] => did_number
      end
  | Raise _ => did_number
  end.

(** The payload sent for [input] once the DID is known. *)
Definition payload_of (input : StartCallInput) (did : pyval)
  : list (string * pyval) :=
  build_payload input (resolve_destination input) did
                (resolve_ai_client input) (resolve_system_prompt input)
                (resolve_greeting_text input).

(** The string the catch-all clause of a tool returns for the
    [AttributeError] of the helper. *)
Definition unexpected_attribute_error : string :=
  "An unexpected error occurred: " ++ str_exn attribute_error.

(** The string [start_new_call] returns for a failed call request. *)
Definition call_failure (input : StartCallInput) (e : exn) : string :=
  if status_is (api_status e) 400 || status_is (api_status e) 422 then
    "Failed to start call due to invalid input: "
      ++ Py.str_option (api_text e)
      ++ ". Please check the provided numbers and parameters."
  else
    "Failed to start call to '" ++ Py.str_option (to_number input)
      ++ "': " ++ api_message e.

(** Lines 314-337 run in state [w] with the DID [did]. *)
Definition submit (input : StartCallInput) (did : pyval) (w : world)
  : result pyval * world :=
  let w' := after_attempt w "POST" "/api/call" None
                          (Some (PDict (payload_of input did))) in
  match remote (sent w) (call_request w (payload_of input did)) with
  | Ret v => (Ret v, w')
  | Raise e =>
      if wrapped e then
        (Ret (PStr (call_failure input e)),
         record_log ("Error in start_new_call to "
                       ++ Py.str_option (to_number input) ++ ": "
                       ++ api_message e) w')
      else
        (Ret (PStr unexpected_attribute_error),
         record_log ("An unexpected error occurred in start_new_call to "
                       ++ Py.str_option (to_number input)) w')
  end.

(** The keys [build_payload] always sets, and those it sets on request. *)
Definition required_keys : list string :=
  ["destination"; "did_number"; "ai_client"; "system_prompt";
   "greeting_text"].

Definition optional_keys (input : StartCallInput) : list string :=
  (match script_id input with Some _ => ["script_id"] | None => [] end)
    ++ (match metadata input with Some _ => ["metadata"] | None => [] end).

(** A request is new when the run issued it: it sits at or beyond the
    position where the run started. *)
Definition issued_by (w w' : world) (req : request) : Prop :=
  exists new, sent w' = (sent w ++ new)%list /\ In req new.

(** The input of the example in the specification: only [to_number],
    [system_prompt] and [greeting_text] are given. *)
Definition example_input : StartCallInput :=
  {| to_number := Some "08069256212";
     from_number := None;
     destination := None;
     did_number := None;
     ai_client := None;
     script_id := None;
     metadata := None;
     system_prompt := "p";
     greeting_text := "g" |}.

(** The state [w] with another value in the global captured at import. *)
Definition with_captured_key (k : string) (w : world) : world :=
  {| environ := environ w; BYTEFLOW_API_KEY := k; BASE_URL := BASE_URL w;
     sent := sent w; log := log w |}.




(** What a tool without input does from [w]: one GET to [endpoint]; the
    decoded response returned unchanged, with nothing logged; on a failure
    the helper wraps, the string [prefix] followed by the message of the
    error; on an [HTTPError] without response, the string of the catch-all
    clause. *)
Definition single_get_outcome (w : world) (tool : M pyval)
           (endpoint prefix : string) : Prop :=
  let req := request_of w "GET" endpoint None None in
  sent (snd (tool w)) = (sent w ++ [req])%list
  /\ (forall v, remote (sent w) req = Ret v ->
                tool w = (Ret v, record_request req w))
  /\ (forall e, remote (sent w) req = Raise e -> wrapped e = true ->
                fst (tool w) = Ret (PStr (prefix ++ api_message e)))
  /\ (forall e, remote (sent w) req = Raise e -> wrapped e = false ->
                fst (tool w) = Ret (PStr unexpected_attribute_error)).

(** The DID [start_new_call] puts in the payload, given or auto-selected,
    and the history at the time of its POST to /api/call. *)
Definition did_used (input : StartCallInput) (w : world) : pyval :=
  if Py.truthy (resolve_did_number input) then resolve_did_number input
  else selected_did (resolve_did_number input)
                    (remote (sent w) (lookup_request w)).

Definition history_at_call (input : StartCallInput) (w : world)
  : list request :=
  if Py.truthy (resolve_did_number input) then sent w
  else (sent w ++ [lookup_request w])%list.

(** The state [w'] has the environment and the globals of [w]. *)
Definition same_configuration (w w' : world) : Prop :=
  environ w' = environ w
  /\ BYTEFLOW_API_KEY w' = BYTEFLOW_API_KEY w
  /\ BASE_URL w' = BASE_URL w.

(** The request is one [_make_request] builds from the configuration of
    [w], for some method, path and body, without query parameters. *)
Definition built_from (w : world) (req : request) : Prop :=
  exists method endpoint json_data,
    req = request_of w method endpoint None json_data.

(** From [w] to [w'] the configuration is kept, at most [n] requests were
    appended to the history, each built from that configuration, and the
    log only grew. *)
Definition grows_by (n : nat) (w w' : world) : Prop :=
  same_configuration w w'
  /\ (exists new,
         sent w' = (sent w ++ new)%list
         /\ (List.length new <= n)%nat
         /\ Forall (built_from w) new)
  /\ (exists lines, log w' = (log w ++ lines)%list).

Definition keeps (n : nat) (tool : M pyval) : Prop :=
  forall w, grows_by n w (snd (tool w)).

(** A run of [tool] keeps the configuration, appends at most [n] requests
    to the history and only appends to the log. *)
Definition preserves (n : nat) (tool : M pyval) : Prop :=
  forall w,
    same_configuration w (snd (tool w))
    /\ (exists new,
           sent (snd (tool w)) = (sent w ++ new)%list
           /\ (List.length new <= n)%nat)
    /\ (exists lines, log (snd (tool w)) = (log w ++ lines)%list).

(** Every request a run of [tool] issues has no query parameters, the
    timeout of 15, a URL under the base URL, and the three headers built
    from the key the environment held when the run started. *)
Definition sends_credentials (tool : M pyval) : Prop :=
  forall w req,
    issued_by w (snd (tool w)) req ->
    r_params req = None
    /\ r_timeout req = 15
    /\ (exists endpoint, r_url req = BASE_URL w ++ endpoint)
    /\ r_headers req
       = [("Content-Type", "application/json");
          ("Authorization",
           "Bearer " ++ match Py.get "BYTEFLOW_API_KEY" (environ w) with
                        | Some k => k
                        | None => "dummy_key_for_tests"
                        end);
          ("X-API-Key",
           match Py.get "BYTEFLOW_API_KEY" (environ w) with
           | Some k => k
           | None => "dummy_key_for_tests"
           end)].

(** ** What one call of the request helper does *)

Lemma _make_request_run (method endpoint : string)
      (params json_data : option pyval) (w : world) :
  _make_request method endpoint params json_data w
  = (match attempt w method endpoint params json_data with
     | Ret v => Ret v
     | Raise e => Raise (api_error e)
     end,
     after_attempt w method endpoint params json_data).
Proof.
  unfold _make_request, attempt, after_attempt, bind, get_BASE_URL,
    try_except, os_getenv, requests_request, request_of, current_key.
  cbn [Py.set HEADERS String.eqb Ascii.eqb Bool.eqb r_url].
  destruct (remote (sent w) _) as [v | e]; [reflexivity |].
  destruct e; reflexivity.
Qed.

Lemma after_attempt_sent w method endpoint params json_data :
  sent (after_attempt w method endpoint params json_data)
  = (sent w ++ [request_of w method endpoint params json_data])%list.
Proof.
  unfold after_attempt.
  destruct (remote (sent w) _) as [v | e]; [| destruct (wrapped e)];
    reflexivity.
Qed.

Lemma after_attempt_request w method endpoint params json_data m' e' p' j' :
  request_of (after_attempt w method endpoint params json_data) m' e' p' j'
  = request_of w m' e' p' j'.
Proof.
  unfold after_attempt.
  destruct (remote (sent w) _) as [v | e]; [| destruct (wrapped e)];
    reflexivity.
Qed.

Lemma record_log_sent msg w : sent (record_log msg w) = sent w.
Proof. reflexivity. Qed.

Lemma record_log_request msg w m e p j :
  request_of (record_log msg w) m e p j = request_of w m e p j.
Proof. reflexivity. Qed.

Lemma api_error_wrapped e :
  wrapped e = true ->
  api_error e = ByteflowAPIError (api_message e) (api_status e) (api_text e).
Proof. unfold api_error. intros ->. reflexivity. Qed.

Lemma api_error_bare e : wrapped e = false -> api_error e = attribute_error.
Proof. unfold api_error. intros ->. reflexivity. Qed.

(** The helper raises a [ByteflowAPIError], or the [AttributeError] of its
    own [HTTPError] clause. *)
Lemma _make_request_raises method endpoint params json_data w e w' :
  _make_request method endpoint params json_data w = (Raise e, w') ->
  is_api_error e = true \/ e = attribute_error.
Proof.
  rewrite _make_request_run.
  destruct (attempt w method endpoint params json_data) as [v | e0];
    intros H; inversion H; subst.
  unfold api_error. destruct (wrapped e0); [left | right]; reflexivity.
Qed.

(** [try: response = _make_request(...); return response except ...]. *)
Lemma try_request_run method endpoint params json_data handlers w :
  try_except
    (response <- _make_request method endpoint params json_data ;;
     ret response) handlers w
  = match attempt w method endpoint params json_data with
    | Ret v => (Ret v, after_attempt w method endpoint params json_data)
    | Raise e =>
        match handlers (api_error e) with
        | Some h => h (after_attempt w method endpoint params json_data)
        | None =>
            (Raise (api_error e),
             after_attempt w method endpoint params json_data)
        end
    end.
Proof.
  unfold try_except, bind. rewrite _make_request_run.
  destruct (attempt w method endpoint params json_data); reflexivity.
Qed.

Lemma logger_error_run {A : Type} msg (m : M A) w :
  (logger_error msg ;; m) w = m (record_log msg w).
Proof. reflexivity. Qed.

Lemma logger_exception_run {A : Type} msg (m : M A) w :
  (logger_exception msg ;; m) w = m (record_log msg w).
Proof. reflexivity. Qed.

(** ** The DID fallback chain *)

Ltac norm_world :=
  repeat first
    [ rewrite record_log_request | rewrite after_attempt_request
    | rewrite record_log_sent | rewrite after_attempt_sent
    | rewrite <- app_assoc ];
  cbn [app].

Ltac step_request :=
  rewrite try_request_run; unfold attempt; norm_world.

Ltac wrapped_by H :=
  rewrite (api_error_wrapped _ H); cbn beta iota.

Ltac bare_by H :=
  rewrite (api_error_bare _ H); unfold attribute_error; cbn beta iota.

(** C1.  [list_available_dids] tries POST /api/validate-and-fetch-dids,
    then GET /api/did/my-dids, then GET /api/dids.  A success at any step
    is returned at once and is the last request issued (one, two or three
    requests); a later step runs only after the one before failed with a
    [ByteflowAPIError], that is with a failure the helper wraps; when all
    three fail so, three requests were issued and the string returned
    carries the message of the third failure.  A failure the helper does
    not wrap ends the chain: after such a failure of the first step the
    catch-all string is returned with one request issued, and after such a
    failure of the second step no third request is issued. *)
Theorem list_available_dids_chain (w : world) :
  let r1 := primary_request w in
  let r2 := fallback1_request w in
  let r3 := fallback2_request w in
  let out := list_available_dids w in
  (r_method r1 = "POST"
   /\ r_url r1 = BASE_URL w ++ "/api/validate-and-fetch-dids"
   /\ r_method r2 = "GET" /\ r_url r2 = BASE_URL w ++ "/api/did/my-dids"
   /\ r_method r3 = "GET" /\ r_url r3 = BASE_URL w ++ "/api/dids")
  /\ (forall v, remote (sent w) r1 = Ret v ->
             fst out = Ret v /\ sent (snd out) = (sent w ++ [r1])%list)
  /\ (forall e1 v,
         remote (sent w) r1 = Raise e1 -> wrapped e1 = true ->
         remote (sent w ++ [r1])%list r2 = Ret v ->
         fst out = Ret v /\ sent (snd out) = (sent w ++ [r1; r2])%list)
  /\ (forall e1 e2 v,
         remote (sent w) r1 = Raise e1 -> wrapped e1 = true ->
         remote (sent w ++ [r1])%list r2 = Raise e2 -> wrapped e2 = true ->
         remote (sent w ++ [r1; r2])%list r3 = Ret v ->
         fst out = Ret v /\ sent (snd out) = (sent w ++ [r1; r2; r3])%list)
  /\ (forall e1 e2 e3,
         remote (sent w) r1 = Raise e1 -> wrapped e1 = true ->
         remote (sent w ++ [r1])%list r2 = Raise e2 -> wrapped e2 = true ->
         remote (sent w ++ [r1; r2])%list r3 = Raise e3 -> wrapped e3 = true ->
         fst out
         = Ret (PStr ("Failed to list available DIDs: " ++ api_message e3))
         /\ sent (snd out) = (sent w ++ [r1; r2; r3])%list)
  /\ (forall e1,
         remote (sent w) r1 = Raise e1 -> wrapped e1 = false ->
         fst out = Ret (PStr unexpected_attribute_error)
         /\ sent (snd out) = (sent w ++ [r1])%list)
  /\ (forall e1 e2,
         remote (sent w) r1 = Raise e1 -> wrapped e1 = true ->
         remote (sent w ++ [r1])%list r2 = Raise e2 -> wrapped e2 = false ->
         sent (snd out) = (sent w ++ [r1; r2])%list).
Proof.
  cbv zeta.
  unfold list_available_dids, primary_request, fallback1_request,
    fallback2_request.
  repeat apply conj; try reflexivity.
  - intros v H1. step_request. rewrite H1. cbn [fst snd]. norm_world.
    split; reflexivity.
  - intros e1 v H1 W1 H2. step_request. rewrite H1. wrapped_by W1.
    rewrite logger_error_run. step_request. rewrite H2.
    cbn [fst snd]. norm_world. split; reflexivity.
  - intros e1 e2 v H1 W1 H2 W2 H3. step_request. rewrite H1. wrapped_by W1.
    rewrite logger_error_run. step_request. rewrite H2. wrapped_by W2.
    rewrite logger_error_run. step_request. rewrite H3.
    cbn [fst snd]. norm_world. split; reflexivity.
  - intros e1 e2 e3 H1 W1 H2 W2 H3 W3.
    step_request. rewrite H1. wrapped_by W1.
    rewrite logger_error_run. step_request. rewrite H2. wrapped_by W2.
    rewrite logger_error_run. step_request. rewrite H3. wrapped_by W3.
    rewrite logger_error_run. unfold ret.
    cbn [fst snd]. norm_world. split; reflexivity.
  - intros e1 H1 W1. step_request. rewrite H1. bare_by W1.
    rewrite logger_exception_run. unfold ret.
    cbn [fst snd]. norm_world. split; reflexivity.
  - intros e1 e2 H1 W1 H2 W2. step_request. rewrite H1. wrapped_by W1.
    rewrite logger_error_run. step_request. rewrite H2. bare_by W2.
    cbn [snd]. norm_world. reflexivity.
Qed.

(** ** Call initiation *)

Lemma auto_select_did_run did w :
  auto_select_did did w
  = (Ret (selected_did did (remote (sent w) (lookup_request w))),
     after_attempt w "POST" "/api/validate-and-fetch-dids" None None).
Proof.
  unfold auto_select_did, try_except, bind, lookup_request.
  rewrite _make_request_run. unfold attempt, selected_did.
  destruct (remote (sent w) _) as [resp | e]; [| reflexivity].
  destruct (dids_of_response resp); reflexivity.
Qed.

Lemma start_new_call_run input w :
  start_new_call input w
  = if negb (Py.truthy (resolve_destination input)) then
      (Ret (PStr destination_required), w)
    else if negb (Py.truthy (resolve_did_number input)) then
      let did := selected_did (resolve_did_number input)
                              (remote (sent w) (lookup_request w)) in
      let w1 := after_attempt w "POST" "/api/validate-and-fetch-dids"
                              None None in
      if negb (Py.truthy did) then (Ret (PStr did_number_required), w1)
      else submit input did w1
    else submit input (resolve_did_number input) w.
Proof.
  unfold start_new_call, try_except, bind. cbv zeta.
  destruct (negb (Py.truthy (resolve_destination input))); [reflexivity |].
  destruct (negb (Py.truthy (resolve_did_number input))) eqn:Hdid.
  - rewrite auto_select_did_run.
    destruct (negb (Py.truthy (selected_did _ _))); [reflexivity |].
    rewrite _make_request_run. unfold submit, attempt, call_request, payload_of.
    destruct (remote _ _) as [v | e]; [reflexivity |].
    unfold api_error. destruct (wrapped e).
    + unfold logger_error, call_failure, ret.
      destruct (_ || _); reflexivity.
    + reflexivity.
  - unfold ret at 1.
    rewrite Hdid.
    rewrite _make_request_run. unfold submit, attempt, call_request, payload_of.
    destruct (remote _ _) as [v | e]; [reflexivity |].
    unfold api_error. destruct (wrapped e).
    + unfold logger_error, call_failure, ret.
      destruct (_ || _); reflexivity.
    + reflexivity.
Qed.

Lemma submit_sent input did w :
  sent (snd (submit input did w))
  = (sent w ++ [call_request w (payload_of input did)])%list.
Proof.
  unfold submit, call_request.
  destruct (remote (sent w) _) as [v | e]; [| destruct (wrapped e)];
    cbn [snd]; norm_world; reflexivity.
Qed.

Lemma submit_returns input did w :
  exists v, fst (submit input did w) = Ret v.
Proof.
  unfold submit.
  destruct (remote (sent w) _) as [v | e]; [| destruct (wrapped e)];
    eexists; reflexivity.
Qed.

Lemma lookup_request_after w method endpoint params json_data :
  lookup_request (after_attempt w method endpoint params json_data)
  = lookup_request w.
Proof. apply after_attempt_request. Qed.

Lemma call_request_after w method endpoint params json_data payload :
  call_request (after_attempt w method endpoint params json_data) payload
  = call_request w payload.
Proof. apply after_attempt_request. Qed.

Lemma payload_of_keys input did :
  Py.keys (payload_of input did)
  = (required_keys ++ optional_keys input)%list.
Proof.
  unfold payload_of, build_payload, optional_keys.
  destruct (script_id input), (metadata input); reflexivity.
Qed.

Lemma payload_of_fields input did :
  Py.get "destination" (payload_of input did)
  = Some (resolve_destination input)
  /\ Py.get "did_number" (payload_of input did) = Some did
  /\ Py.get "ai_client" (payload_of input did)
     = Some (resolve_ai_client input)
  /\ Py.get "system_prompt" (payload_of input did)
     = Some (resolve_system_prompt input)
  /\ Py.get "greeting_text" (payload_of input did)
     = Some (resolve_greeting_text input).
Proof.
  unfold payload_of, build_payload.
  destruct (script_id input), (metadata input); repeat split; reflexivity.
Qed.

Lemma payload_of_optional input did :
  Py.get "script_id" (payload_of input did)
  = option_map PStr (script_id input)
  /\ Py.get "metadata" (payload_of input did)
     = option_map PDict (metadata input).
Proof.
  unfold payload_of, build_payload.
  destruct (script_id input), (metadata input); split; reflexivity.
Qed.

Lemma append_cancel (base a b : string) : base ++ a = base ++ b -> a = b.
Proof.
  induction base as [| c base IH]; cbn; intros H; [exact H |].
  inversion H. auto.
Qed.

(** The only request to /api/call a run of [start_new_call] issues is the
    one carrying the assembled payload, with a DID that tests true. *)
Lemma start_new_call_call_request input w req :
  issued_by w (snd (start_new_call input w)) req ->
  r_url req = BASE_URL w ++ "/api/call" ->
  exists did,
    Py.truthy (resolve_destination input) = true
    /\ Py.truthy did = true
    /\ (Py.truthy (resolve_did_number input) = true ->
        did = resolve_did_number input)
    /\ req = call_request w (payload_of input did).
Proof.
  intros (new & Hsent & Hin) Hurl.
  rewrite start_new_call_run in Hsent.
  destruct (Py.truthy (resolve_destination input)) eqn:Hdest; cbn [negb] in Hsent.
  2:{ cbn [snd] in Hsent. rewrite <- (app_nil_r (sent w)) in Hsent at 1.
      apply app_inv_head in Hsent. subst new. destruct Hin. }
  destruct (Py.truthy (resolve_did_number input)) eqn:Hdid;
    cbn [negb] in Hsent; cbv zeta in Hsent.
  - rewrite submit_sent in Hsent. apply app_inv_head in Hsent. subst new.
    destruct Hin as [<- | []].
    exists (resolve_did_number input).
    split; [reflexivity |]. split; [exact Hdid |].
    split; reflexivity.
  - destruct (Py.truthy (selected_did _ _)) eqn:Hsel; cbn [negb] in Hsent.
    + rewrite submit_sent, call_request_after in Hsent. norm_world.
      rewrite after_attempt_sent, <- app_assoc in Hsent.
      apply app_inv_head in Hsent. subst new.
      destruct Hin as [<- | [<- | []]].
      * apply append_cancel in Hurl. discriminate Hurl.
      * exists (selected_did (resolve_did_number input)
                              (remote (sent w) (lookup_request w))).
        split; [reflexivity |]. split; [exact Hsel |].
        split; [discriminate | reflexivity].
    + cbn [snd] in Hsent. rewrite after_attempt_sent in Hsent.
      apply app_inv_head in Hsent. subst new.
      destruct Hin as [<- | []].
      apply append_cancel in Hurl. discriminate Hurl.
Qed.

(** ** Properties of [start_new_call] *)

(** C2.  When neither [destination] nor [to_number] is given,
    [start_new_call] returns the destination-required string and leaves
    the state as it found it: no request is issued. *)
Theorem start_new_call_without_destination (input : StartCallInput)
        (w : world) :
  destination input = None ->
  to_number input = None ->
  start_new_call input w = (Ret (PStr destination_required), w)
  /\ sent (snd (start_new_call input w)) = sent w.
Proof.
  intros Hd Ht. rewrite start_new_call_run.
  unfold resolve_destination. rewrite Hd, Ht.
  split; reflexivity.
Qed.

(** C3.  When the call has a destination and no DID after alias
    resolution, the auto-selection issues exactly one request, the POST to
    /api/validate-and-fetch-dids, and never raises.  On a response whose
    ["dids"] list is non-empty the DID is the ["did_number"] field of its
    first entry when that is a dict, and the [str] of the entry otherwise
    (with [repr_unicode] for what [repr] prints of non-ASCII text inside a
    list entry);
    on a failed lookup the DID stays what it was.  When the DID then still
    tests false the tool returns the did_number-required string with the
    lookup as the only request; otherwise the one further request is the
    POST to /api/call. *)
Theorem start_new_call_auto_select (input : StartCallInput) (w : world) :
  Py.truthy (resolve_destination input) = true ->
  Py.truthy (resolve_did_number input) = false ->
  let lookup := lookup_request w in
  let out := start_new_call input w in
  exists did w1,
    auto_select_did (resolve_did_number input) w = (Ret did, w1)
    /\ r_method lookup = "POST"
    /\ r_url lookup = BASE_URL w ++ "/api/validate-and-fetch-dids"
    /\ sent w1 = (sent w ++ [lookup])%list
    /\ (forall d fd rest,
           remote (sent w) lookup = Ret (PDict d) ->
           Py.get "dids" d = Some (PList (PDict fd :: rest)) ->
           did = match Py.get "did_number" fd with
                 | Some v => v
                 | None => PNone
                 end)
    /\ (forall d entry rest,
           remote (sent w) lookup = Ret (PDict d) ->
           Py.get "dids" d = Some (PList (entry :: rest)) ->
           Py.isinstance_dict entry = false ->
           did = PStr (Py.str repr_unicode entry))
    /\ (forall e, remote (sent w) lookup = Raise e ->
                  did = resolve_did_number input)
    /\ (Py.truthy did = false ->
        out = (Ret (PStr did_number_required), w1))
    /\ (Py.truthy did = true ->
        sent (snd out)
        = (sent w ++ [lookup; call_request w (payload_of input did)])%list).
Proof.
  intros Hdest Hdid lookup out.
  exists (selected_did (resolve_did_number input) (remote (sent w) lookup)).
  exists (after_attempt w "POST" "/api/validate-and-fetch-dids" None None).
  split; [apply auto_select_did_run |].
  split; [reflexivity |]. split; [reflexivity |].
  split; [apply after_attempt_sent |].
  split; [| split; [| split; [| split]]].
  - intros d fd rest Hresp Hget. rewrite Hresp.
    unfold selected_did, dids_of_response. rewrite Hget. reflexivity.
  - intros d entry rest Hresp Hget Hnot. rewrite Hresp.
    unfold selected_did, dids_of_response. rewrite Hget.
    destruct entry; try reflexivity. discriminate Hnot.
  - intros e Hresp. rewrite Hresp. reflexivity.
  - intros Hsel. subst out. rewrite start_new_call_run.
    rewrite Hdest, Hdid. cbn [negb]. cbv zeta.
    fold lookup. rewrite Hsel. reflexivity.
  - intros Hsel. subst out. rewrite start_new_call_run.
    rewrite Hdest, Hdid. cbn [negb]. cbv zeta.
    fold lookup. rewrite Hsel. cbn [negb].
    rewrite submit_sent, call_request_after, after_attempt_sent,
      <- app_assoc.
    reflexivity.
Qed.

(** C4.  Whenever [start_new_call] issues its request to /api/call, the
    body is a dict whose keys are [destination], [did_number], [ai_client],
    [system_prompt], [greeting_text], then [script_id] exactly when the
    input has one and [metadata] exactly when the input has one; an
    optional field that was not given has no key. *)
Theorem start_new_call_payload_keys (input : StartCallInput) (w : world)
        (req : request) :
  issued_by w (snd (start_new_call input w)) req ->
  r_url req = BASE_URL w ++ "/api/call" ->
  exists payload,
    r_method req = "POST"
    /\ r_json req = Some (PDict payload)
    /\ Py.keys payload = (required_keys ++ optional_keys input)%list
    /\ Py.get "script_id" payload = option_map PStr (script_id input)
    /\ Py.get "metadata" payload = option_map PDict (metadata input).
Proof.
  intros Hissued Hurl.
  destruct (start_new_call_call_request input w req Hissued Hurl)
    as (did & _ & _ & _ & ->).
  exists (payload_of input did).
  split; [reflexivity |]. split; [reflexivity |].
  split; [apply payload_of_keys |]. apply payload_of_optional.
Qed.

(** C5, as amended.  In the body sent to /api/call, [ai_client] is the
    default ["client1"] when the field is absent or the empty string, and
    [system_prompt] and [greeting_text] are their defaults when the given
    string is empty; a non-empty string is passed through unchanged. *)
Theorem start_new_call_defaults (input : StartCallInput) (w : world)
        (req : request) :
  issued_by w (snd (start_new_call input w)) req ->
  r_url req = BASE_URL w ++ "/api/call" ->
  exists payload,
    r_json req = Some (PDict payload)
    /\ Py.get "ai_client" payload
       = Some (PStr match ai_client input with
                    | Some s => if String.eqb s "" then "client1" else s
                    | None => "client1"
                    end)
    /\ Py.get "system_prompt" payload
       = Some (PStr (if String.eqb (system_prompt input) ""
                     then "You are an AI assistant helping with a phone call."
                     else system_prompt input))
    /\ Py.get "greeting_text" payload
       = Some (PStr (if String.eqb (greeting_text input) ""
                     then "Hello! This is an automated call."
                     else greeting_text input)).
Proof.
  intros Hissued Hurl.
  destruct (start_new_call_call_request input w req Hissued Hurl)
    as (did & _ & _ & _ & ->).
  exists (payload_of input did).
  destruct (payload_of_fields input did) as (_ & _ & Hai & Hsp & Hgt).
  rewrite Hai, Hsp, Hgt.
  unfold resolve_ai_client, resolve_system_prompt, resolve_greeting_text,
    Py.or, Py.of_option, Py.truthy.
  split; [reflexivity |].
  destruct (ai_client input) as [s |]; [destruct (String.eqb s "") |];
    destruct (String.eqb (system_prompt input) "");
    destruct (String.eqb (greeting_text input) "");
    repeat split; reflexivity.
Qed.

(** C7, as amended.  For [example_input], when the lookup answers with a
    dict whose ["dids"] list is [["+1555..."]], the tool issues the lookup
    and then a POST to /api/call whose body has [destination] ["08069256212"],
    [did_number] ["+1555..."] and [ai_client] ["client1"]. *)
Theorem start_new_call_example (w : world) (d : list (string * pyval)) :
  remote (sent w) (lookup_request w) = Ret (PDict d) ->
  Py.get "dids" d = Some (PList [PStr "+1555..."]) ->
  exists payload req,
    sent (snd (start_new_call example_input w))
    = (sent w ++ [lookup_request w; req])%list
    /\ r_method req = "POST"
    /\ r_url req = BASE_URL w ++ "/api/call"
    /\ r_json req = Some (PDict payload)
    /\ Py.get "destination" payload = Some (PStr "08069256212")
    /\ Py.get "did_number" payload = Some (PStr "+1555...")
    /\ Py.get "ai_client" payload = Some (PStr "client1").
Proof.
  intros Hresp Hget.
  exists (payload_of example_input (PStr "+1555...")).
  exists (call_request w (payload_of example_input (PStr "+1555..."))).
  rewrite start_new_call_run. cbn [negb example_input].
  change (Py.truthy (resolve_destination example_input)) with true.
  change (Py.truthy (resolve_did_number example_input)) with false.
  cbn [negb]. cbv zeta. rewrite Hresp.
  unfold selected_did, dids_of_response. rewrite Hget.
  change (Py.truthy (did_of_entry (PStr "+1555..."))) with true.
  cbn [negb]. rewrite submit_sent, call_request_after, after_attempt_sent,
    <- app_assoc.
  repeat split; reflexivity.
Qed.

(** C8, as amended.  A direct field that is given and not empty wins over
    its alias: the resolved destination is [destination] and the resolved
    DID is [did_number], whatever [to_number] and [from_number] hold, and
    these are the values in the body of the request to /api/call. *)
Theorem direct_field_wins (input : StartCallInput) (w : world)
        (req : request) :
  (forall s t,
      destination input = Some s -> to_number input = Some t -> s <> "" ->
      resolve_destination input = PStr s
      /\ (issued_by w (snd (start_new_call input w)) req ->
          r_url req = BASE_URL w ++ "/api/call" ->
          exists payload,
            r_json req = Some (PDict payload)
            /\ Py.get "destination" payload = Some (PStr s)))
  /\ (forall s t,
         did_number input = Some s -> from_number input = Some t ->
         s <> "" ->
         resolve_did_number input = PStr s
         /\ (issued_by w (snd (start_new_call input w)) req ->
             r_url req = BASE_URL w ++ "/api/call" ->
             exists payload,
               r_json req = Some (PDict payload)
               /\ Py.get "did_number" payload = Some (PStr s))).
Proof.
  split; intros s t Hdirect Halias Hne.
  - assert (Hres : resolve_destination input = PStr s).
    { unfold resolve_destination, Py.or. rewrite Hdirect. cbn.
      destruct (String.eqb_spec s ""); [contradiction | reflexivity]. }
    split; [exact Hres |]. intros Hissued Hurl.
    destruct (start_new_call_call_request input w req Hissued Hurl)
      as (did & _ & _ & _ & ->).
    exists (payload_of input did). split; [reflexivity |].
    destruct (payload_of_fields input did) as (Hd & _).
    rewrite Hd, Hres. reflexivity.
  - assert (Hres : resolve_did_number input = PStr s).
    { unfold resolve_did_number, Py.or. rewrite Hdirect. cbn.
      destruct (String.eqb_spec s ""); [contradiction | reflexivity]. }
    split; [exact Hres |]. intros Hissued Hurl.
    destruct (start_new_call_call_request input w req Hissued Hurl)
      as (did & _ & _ & Hsame & ->).
    exists (payload_of input did). split; [reflexivity |].
    destruct (payload_of_fields input did) as (_ & Hd & _).
    rewrite Hd, Hsame, Hres; [reflexivity |].
    rewrite Hres. cbn. destruct (String.eqb_spec s ""); [contradiction | reflexivity].
Qed.

(** C10.  With [did_number] and [from_number] both absent and a
    destination given, when the lookup succeeds with a response that is not
    a dict holding a list under ["dids"], or whose first entry is a dict
    with no ["did_number"] field that tests true, the tool returns the
    did_number-required string and the lookup is the only request. *)
Theorem start_new_call_no_did_selected (input : StartCallInput) (w : world)
        (resp : pyval) :
  did_number input = None ->
  from_number input = None ->
  Py.truthy (resolve_destination input) = true ->
  remote (sent w) (lookup_request w) = Ret resp ->
  (forall d l, resp = PDict d -> Py.get "dids" d <> Some (PList l))
  \/ (exists d fd rest,
         resp = PDict d
         /\ Py.get "dids" d = Some (PList (PDict fd :: rest))
         /\ forall v, Py.get "did_number" fd = Some v ->
                      Py.truthy v = false) ->
  fst (start_new_call input w) = Ret (PStr did_number_required)
  /\ sent (snd (start_new_call input w))
     = (sent w ++ [lookup_request w])%list.
Proof.
  intros Hd Hf Hdest Hresp Hshape.
  rewrite start_new_call_run, Hdest.
  unfold resolve_did_number. rewrite Hd, Hf.
  cbn [negb Py.of_option Py.or Py.truthy]. cbv zeta. rewrite Hresp.
  assert (Hsel : Py.truthy (selected_did PNone (Ret resp)) = false).
  { unfold selected_did, dids_of_response.
    destruct Hshape as [Hno | (d & fd & rest & -> & Hget & Hfield)].
    - destruct resp as [| | | | | | d]; try reflexivity.
      destruct (Py.get "dids" d) as [[| | | | | l |] |] eqn:Hget;
        try reflexivity.
      exfalso. exact (Hno d l eq_refl Hget).
    - rewrite Hget. unfold did_of_entry.
      destruct (Py.get "did_number" fd) as [v |]; [| reflexivity].
      apply Hfield. reflexivity. }
  rewrite Hsel. cbn [negb fst snd].
  split; [reflexivity | apply after_attempt_sent].
Qed.

(** ** Credentials *)

(** C9.  Every call of [_make_request] issues one request, whose
    [Authorization] header is ["Bearer "] followed by the key and whose
    [X-API-Key] header is the key, where the key is the value of
    BYTEFLOW_API_KEY in the environment at the time of the call, or
    ["dummy_key_for_tests"] when the environment has none.  The global
    captured at import plays no part, and the call ends with the decoded
    response or with the error the helper raises for the failure of the
    request, also when the key is missing. *)
Theorem _make_request_credentials (method endpoint : string)
        (params json_data : option pyval) (w : world) :
  let key := match Py.get "BYTEFLOW_API_KEY" (environ w) with
             | Some k => k
             | None => "dummy_key_for_tests"
             end in
  let out := _make_request method endpoint params json_data w in
  exists req,
    sent (snd out) = (sent w ++ [req])%list
    /\ r_method req = method
    /\ r_url req = BASE_URL w ++ endpoint
    /\ Py.get "Authorization" (r_headers req) = Some ("Bearer " ++ key)
    /\ Py.get "X-API-Key" (r_headers req) = Some key
    /\ (forall captured,
           sent (snd (_make_request method endpoint params json_data
                                    (with_captured_key captured w)))
           = (sent w ++ [req])%list)
    /\ fst out = match remote (sent w) req with
                 | Ret v => Ret v
                 | Raise e => Raise (api_error e)
                 end.
Proof.
  cbv zeta.
  exists (request_of w method endpoint params json_data).
  rewrite _make_request_run. cbn [fst snd].
  split; [apply after_attempt_sent |].
  repeat (split; [reflexivity |]).
  split; [| reflexivity].
  intros captured. rewrite _make_request_run. cbn [snd].
  rewrite after_attempt_sent. reflexivity.
Qed.

(** ** No tool raises *)











(** ** Failures of the request helper *)

(** X1.  When the HTTP layer fails, [_make_request] has issued its one
    request.  For every failure but an [HTTPError] without response it
    raises a [ByteflowAPIError] that carries a status code exactly when the
    failure was an [HTTPError], then with that error's code and body text,
    and has logged one line.  For an [HTTPError] without response it raises
    the [AttributeError] of reading the status code, and has logged
    nothing. *)
Theorem _make_request_failure (method endpoint : string)
        (params json_data : option pyval) (w : world) (e : exn) :
  remote (sent w) (request_of w method endpoint params json_data) = Raise e ->
  (wrapped e = true ->
   exists message status_code response_text line,
     _make_request method endpoint params json_data w
     = (Raise (ByteflowAPIError message status_code response_text),
        record_log line
          (record_request (request_of w method endpoint params json_data) w))
     /\ (forall c t,
            status_code = Some c /\ response_text = Some t
            <-> exists msg, e = HTTPError c t msg)
     /\ (status_code = None <-> response_text = None))
  /\ (wrapped e = false ->
      _make_request method endpoint params json_data w
      = (Raise (OtherException
                  "'NoneType' object has no attribute 'status_code'"),
         record_request (request_of w method endpoint params json_data) w)).
Proof.
  intros He. split; intros W.
  - exists (api_message e), (api_status e), (api_text e),
      (api_log method (BASE_URL w ++ endpoint) e).
    split.
    + rewrite _make_request_run. unfold attempt, after_attempt.
      rewrite He, W, (api_error_wrapped _ W). reflexivity.
    + split.
      * intros c t. split.
        -- intros [Hc Ht]. destruct e; try discriminate Hc.
           cbn in Hc, Ht. inversion Hc. inversion Ht. subst.
           eexists. reflexivity.
        -- intros [msg ->]. split; reflexivity.
      * destruct e; cbn; split; intros H; try reflexivity; discriminate H.
  - rewrite _make_request_run. unfold attempt, after_attempt.
    rewrite He, W, (api_error_bare _ W). reflexivity.
Qed.

(** ** What each tool returns *)

(** X2.  [get_health_status], [get_configuration] and [get_active_calls]
    each issue one GET, to /api/health, /api/config and /api/calls/active,
    whatever the outcome.  The decoded response is returned unchanged with
    nothing logged; a failure the helper wraps gives the tool's own prefix
    followed by the message of the error; an [HTTPError] without response
    gives the string of the catch-all clause. *)
Theorem plain_tools_outcome (w : world) :
  single_get_outcome w get_health_status "/api/health"
                     "Failed to get health status: "
  /\ single_get_outcome w get_configuration "/api/config"
                        "Failed to get configuration: "
  /\ single_get_outcome w get_active_calls "/api/calls/active"
                        "Failed to get active calls: ".
Proof.
  unfold single_get_outcome, get_health_status, get_configuration,
    get_active_calls.
  repeat apply conj.
  all: try (intros v H; rewrite try_request_run; unfold attempt, after_attempt;
            rewrite H; reflexivity).
  all: try (intros e H W; rewrite try_request_run; unfold attempt; rewrite H;
            match type of W with
            | _ = true => wrapped_by W
            | _ = false => bare_by W
            end; reflexivity).
  all: rewrite try_request_run; unfold attempt;
    destruct (remote (sent w) _) as [v | e] eqn:E;
    [ cbn [snd]; apply after_attempt_sent
    | unfold api_error; destruct (wrapped e); [| unfold attribute_error];
      cbn beta iota; rewrite ?logger_error_run, ?logger_exception_run;
      unfold ret; cbn [snd]; rewrite ?record_log_sent;
      apply after_attempt_sent ].
Qed.

(** X3.  [get_call_status] issues one GET to /api/call/<call_id>.  The
    response is returned unchanged; an HTTP 404 gives the not-found message
    naming the call; every other failure the helper wraps gives the generic
    message with the error's text; an [HTTPError] without response gives
    the string of the catch-all clause. *)
Theorem get_call_status_outcome (input : CallIdInput) (w : world) :
  let req := request_of w "GET" ("/api/call/" ++ call_id input) None None in
  let out := get_call_status input w in
  sent (snd out) = (sent w ++ [req])%list
  /\ (forall v, remote (sent w) req = Ret v ->
                out = (Ret v, record_request req w))
  /\ (forall text msg,
         remote (sent w) req = Raise (HTTPError 404 text msg) ->
         fst out
         = Ret (PStr ("Call with ID '" ++ call_id input
                        ++ "' not found. Please check the call ID.")))
  /\ (forall e,
         remote (sent w) req = Raise e ->
         wrapped e = true ->
         api_status e <> Some 404 ->
         fst out
         = Ret (PStr ("Failed to get call status for '" ++ call_id input
                        ++ "': " ++ api_message e)))
  /\ (forall e,
         remote (sent w) req = Raise e ->
         wrapped e = false ->
         fst out = Ret (PStr unexpected_attribute_error)).
Proof.
  cbv zeta. unfold get_call_status.
  repeat apply conj.
  - rewrite try_request_run; unfold attempt.
    destruct (remote (sent w) _) as [v | e] eqn:E.
    + cbn [snd]. apply after_attempt_sent.
    + unfold api_error. destruct (wrapped e); [| unfold attribute_error];
        cbn beta iota; rewrite ?logger_error_run, ?logger_exception_run;
        try destruct (status_is _ _);
        unfold ret; cbn [snd]; rewrite ?record_log_sent;
        apply after_attempt_sent.
  - intros v H. rewrite try_request_run; unfold attempt, after_attempt.
    rewrite H. reflexivity.
  - intros text msg H. rewrite try_request_run; unfold attempt.
    rewrite H. reflexivity.
  - intros e H W Hs. rewrite try_request_run; unfold attempt. rewrite H.
    wrapped_by W. rewrite logger_error_run.
    destruct (status_is (api_status e) 404) eqn:Es; [| reflexivity].
    exfalso. apply Hs. unfold status_is in Es.
    destruct (api_status e) as [c |]; [| discriminate Es].
    apply Z.eqb_eq in Es. subst c. reflexivity.
  - intros e H W. rewrite try_request_run; unfold attempt. rewrite H.
    bare_by W. reflexivity.
Qed.

(** X4.  [get_call_transcript] issues one GET to
    /api/call/<call_id>/transcript.  The response is returned unchanged; an
    HTTP 404 gives the transcript-not-found message; every other failure
    the helper wraps gives the generic message with the error's text; an
    [HTTPError] without response gives the string of the catch-all
    clause. *)
Theorem get_call_transcript_outcome (input : CallIdInput) (w : world) :
  let req := request_of w "GET" ("/api/call/" ++ call_id input ++ "/transcript") None None in
  let out := get_call_transcript input w in
  sent (snd out) = (sent w ++ [req])%list
  /\ (forall v, remote (sent w) req = Ret v ->
                out = (Ret v, record_request req w))
  /\ (forall text msg,
         remote (sent w) req = Raise (HTTPError 404 text msg) ->
         fst out
         = Ret (PStr ("Transcript for call ID '" ++ call_id input
                        ++ "' not found or call does not exist. It might not be available yet.")))
  /\ (forall e,
         remote (sent w) req = Raise e ->
         wrapped e = true ->
         api_status e <> Some 404 ->
         fst out
         = Ret (PStr ("Failed to get call transcript for '" ++ call_id input
                        ++ "': " ++ api_message e)))
  /\ (forall e,
         remote (sent w) req = Raise e ->
         wrapped e = false ->
         fst out = Ret (PStr unexpected_attribute_error)).
Proof.
  cbv zeta. unfold get_call_transcript.
  repeat apply conj.
  - rewrite try_request_run; unfold attempt.
    destruct (remote (sent w) _) as [v | e] eqn:E.
    + cbn [snd]. apply after_attempt_sent.
    + unfold api_error. destruct (wrapped e); [| unfold attribute_error];
        cbn beta iota; rewrite ?logger_error_run, ?logger_exception_run;
        try destruct (status_is _ _);
        unfold ret; cbn [snd]; rewrite ?record_log_sent;
        apply after_attempt_sent.
  - intros v H. rewrite try_request_run; unfold attempt, after_attempt.
    rewrite H. reflexivity.
  - intros text msg H. rewrite try_request_run; unfold attempt.
    rewrite H. reflexivity.
  - intros e H W Hs. rewrite try_request_run; unfold attempt. rewrite H.
    wrapped_by W. rewrite logger_error_run.
    destruct (status_is (api_status e) 404) eqn:Es; [| reflexivity].
    exfalso. apply Hs. unfold status_is in Es.
    destruct (api_status e) as [c |]; [| discriminate Es].
    apply Z.eqb_eq in Es. subst c. reflexivity.
  - intros e H W. rewrite try_request_run; unfold attempt. rewrite H.
    bare_by W. reflexivity.
Qed.

(** X5.  [force_disconnect_call] issues one POST, without a body, to
    /api/call/<call_id>/force-disconnect.  The response is returned
    unchanged; an HTTP 404 gives the not-found-or-already-disconnected
    message; every other failure the helper wraps gives the generic
    message; an [HTTPError] without response gives the string of the
    catch-all clause. *)
Theorem force_disconnect_call_outcome (input : CallIdInput) (w : world) :
  let req := request_of w "POST" ("/api/call/" ++ call_id input ++ "/force-disconnect") None None in
  let out := force_disconnect_call input w in
  sent (snd out) = (sent w ++ [req])%list
  /\ (forall v, remote (sent w) req = Ret v ->
                out = (Ret v, record_request req w))
  /\ (forall text msg,
         remote (sent w) req = Raise (HTTPError 404 text msg) ->
         fst out
         = Ret (PStr ("Call with ID '" ++ call_id input
                        ++ "' not found or already disconnected. Cannot force disconnect.")))
  /\ (forall e,
         remote (sent w) req = Raise e ->
         wrapped e = true ->
         api_status e <> Some 404 ->
         fst out
         = Ret (PStr ("Failed to force disconnect call '" ++ call_id input
                        ++ "': " ++ api_message e)))
  /\ (forall e,
         remote (sent w) req = Raise e ->
         wrapped e = false ->
         fst out = Ret (PStr unexpected_attribute_error)).
Proof.
  cbv zeta. unfold force_disconnect_call.
  repeat apply conj.
  - rewrite try_request_run; unfold attempt.
    destruct (remote (sent w) _) as [v | e] eqn:E.
    + cbn [snd]. apply after_attempt_sent.
    + unfold api_error. destruct (wrapped e); [| unfold attribute_error];
        cbn beta iota; rewrite ?logger_error_run, ?logger_exception_run;
        try destruct (status_is _ _);
        unfold ret; cbn [snd]; rewrite ?record_log_sent;
        apply after_attempt_sent.
  - intros v H. rewrite try_request_run; unfold attempt, after_attempt.
    rewrite H. reflexivity.
  - intros text msg H. rewrite try_request_run; unfold attempt.
    rewrite H. reflexivity.
  - intros e H W Hs. rewrite try_request_run; unfold attempt. rewrite H.
    wrapped_by W. rewrite logger_error_run.
    destruct (status_is (api_status e) 404) eqn:Es; [| reflexivity].
    exfalso. apply Hs. unfold status_is in Es.
    destruct (api_status e) as [c |]; [| discriminate Es].
    apply Z.eqb_eq in Es. subst c. reflexivity.
  - intros e H W. rewrite try_request_run; unfold attempt. rewrite H.
    bare_by W. reflexivity.
Qed.

(** X6.  When the input has a destination and a DID (direct or through the
    aliases), [start_new_call] makes no lookup: its only request is the POST
    to /api/call with the payload built from the resolved values, the DID
    being the one given, and the decoded response is returned unchanged. *)
Theorem start_new_call_with_did (input : StartCallInput) (w : world) :
  Py.truthy (resolve_destination input) = true ->
  Py.truthy (resolve_did_number input) = true ->
  let req := call_request w (payload_of input (resolve_did_number input)) in
  let out := start_new_call input w in
  sent (snd out) = (sent w ++ [req])%list
  /\ Py.get "did_number" (payload_of input (resolve_did_number input))
     = Some (resolve_did_number input)
  /\ (forall v, remote (sent w) req = Ret v ->
                out = (Ret v, record_request req w)).
Proof.
  intros Hdest Hdid. cbv zeta.
  rewrite start_new_call_run, Hdest, Hdid. cbn [negb].
  split; [apply submit_sent |].
  split; [apply payload_of_fields |].
  intros v Hv. unfold submit, after_attempt, call_request in *.
  rewrite Hv. reflexivity.
Qed.

(** X7.  When the POST to /api/call fails, with the DID given or
    auto-selected, [start_new_call] returns a string: for an HTTP 400 or
    422 it quotes the body of the response; for any other failure the
    helper wraps it names [to_number] as given, printing [None] when the
    destination came through [destination], and appends the message of the
    error; for an [HTTPError] without response it is the string of the
    catch-all clause. *)
Theorem start_new_call_failure_message (input : StartCallInput) (w : world)
        (e : exn) :
  Py.truthy (resolve_destination input) = true ->
  Py.truthy (did_used input w) = true ->
  remote (history_at_call input w)
         (call_request w (payload_of input (did_used input w)))
  = Raise e ->
  (forall c text msg,
      e = HTTPError c text msg -> c = 400 \/ c = 422 ->
      fst (start_new_call input w)
      = Ret (PStr ("Failed to start call due to invalid input: " ++ text
                     ++ ". Please check the provided numbers and parameters.")))
  /\ (wrapped e = true ->
      api_status e <> Some 400 -> api_status e <> Some 422 ->
      fst (start_new_call input w)
      = Ret (PStr ("Failed to start call to '"
                     ++ match to_number input with
                        | Some t => t
                        | None => "None"
                        end
                     ++ "': " ++ api_message e)))
  /\ (wrapped e = false ->
      fst (start_new_call input w) = Ret (PStr unexpected_attribute_error)).
Proof.
  intros Hdest Hused He.
  assert (Hrun : fst (start_new_call input w)
                 = if wrapped e then Ret (PStr (call_failure input e))
                   else Ret (PStr unexpected_attribute_error)).
  { rewrite start_new_call_run, Hdest. cbn [negb].
    unfold did_used, history_at_call in *.
    destruct (Py.truthy (resolve_did_number input)); cbn [negb].
    - unfold submit. rewrite He. destruct (wrapped e); reflexivity.
    - cbv zeta. rewrite Hused. cbn [negb].
      unfold submit. rewrite call_request_after, after_attempt_sent.
      fold (lookup_request w). rewrite He.
      destruct (wrapped e); reflexivity. }
  rewrite Hrun. unfold call_failure.
  split; [| split].
  - intros c text msg -> [-> | ->]; reflexivity.
  - intros W H400 H422. rewrite W.
    assert (Hs : forall n, api_status e <> Some n ->
                           status_is (api_status e) n = false).
    { intros n Hn. unfold status_is.
      destruct (api_status e) as [c |]; [| reflexivity].
      destruct (Z.eqb_spec c n); [subst; contradiction | reflexivity]. }
    rewrite (Hs 400 H400), (Hs 422 H422). reflexivity.
  - intros W. rewrite W. reflexivity.
Qed.

(** ** What the tools leave alone *)

Lemma built_from_same w w' req :
  same_configuration w w' -> built_from w' req -> built_from w req.
Proof.
  intros (He & _ & Hb) (method & endpoint & json_data & ->).
  exists method, endpoint, json_data.
  unfold request_of, current_key. rewrite He, Hb. reflexivity.
Qed.

Lemma grows_by_refl n w : grows_by n w w.
Proof.
  repeat split.
  - exists []. split; [symmetry; apply app_nil_r |].
    split; [apply Nat.le_0_l | constructor].
  - exists []. symmetry. apply app_nil_r.
Qed.

Lemma grows_by_trans n m w1 w2 w3 :
  grows_by n w1 w2 -> grows_by m w2 w3 -> grows_by (n + m) w1 w3.
Proof.
  intros (Hc1 & (new1 & Hs1 & Hl1 & Hf1) & (lines1 & Hg1))
         (Hc2 & (new2 & Hs2 & Hl2 & Hf2) & (lines2 & Hg2)).
  split.
  { destruct Hc1 as (He1 & Hk1 & Hb1), Hc2 as (He2 & Hk2 & Hb2).
    repeat split; congruence. }
  split.
  - exists (new1 ++ new2)%list. split.
    + rewrite Hs2, Hs1, app_assoc. reflexivity.
    + split.
      * rewrite length_app. apply Nat.add_le_mono; assumption.
      * apply Forall_app. split; [exact Hf1 |].
        eapply Forall_impl; [| exact Hf2].
        intros req. apply built_from_same. exact Hc1.
  - exists (lines1 ++ lines2)%list. rewrite Hg2, Hg1, app_assoc. reflexivity.
Qed.

Lemma grows_by_le n m w w' : (n <= m)%nat -> grows_by n w w' -> grows_by m w w'.
Proof.
  intros Hle (Hc & (new & Hs & Hl & Hf) & Hg).
  split; [exact Hc |]. split; [| exact Hg].
  exists new. split; [exact Hs |].
  split; [eapply Nat.le_trans; eassumption | exact Hf].
Qed.

Lemma grows_by_log msg w : grows_by 0 w (record_log msg w).
Proof.
  repeat split.
  - exists []. split; [symmetry; apply app_nil_r |].
    split; [apply Nat.le_0_l | constructor].
  - exists [msg]. reflexivity.
Qed.

Lemma grows_by_attempt w method endpoint json_data :
  grows_by 1 w (after_attempt w method endpoint None json_data).
Proof.
  assert (Hb : Forall (built_from w)
                      [request_of w method endpoint None json_data]).
  { constructor; [| constructor]. eexists; eexists; eexists. reflexivity. }
  assert (Hreq : grows_by 1 w
                   (record_request
                      (request_of w method endpoint None json_data) w)).
  { repeat split.
    - eexists. split; [reflexivity |]. split; [apply Nat.le_refl | exact Hb].
    - exists []. symmetry. apply app_nil_r. }
  unfold after_attempt.
  destruct (remote (sent w) _) as [v | e]; [exact Hreq |].
  destruct (wrapped e); [| exact Hreq].
  apply (grows_by_trans 1 0 w _ _ Hreq). apply grows_by_log.
Qed.

(** A [try] around one request appends that request and what its clauses
    append. *)
Lemma grows_try_request n method endpoint json_data handlers w :
  (forall e,
      match handlers (api_error e) with
      | Some h => forall w1, grows_by n w1 (snd (h w1))
      | None => True
      end) ->
  grows_by (1 + n) w
    (snd (try_except
            (response <- _make_request method endpoint None json_data ;;
             ret response) handlers w)).
Proof.
  intros Hh. rewrite try_request_run. unfold attempt.
  pose proof (grows_by_attempt w method endpoint json_data) as Hatt.
  destruct (remote (sent w) _) as [v | e] eqn:E.
  - cbn [snd]. eapply grows_by_le; [| exact Hatt]. apply Nat.le_add_r.
  - specialize (Hh e). destruct (handlers (api_error e)) as [h |].
    + eapply grows_by_trans; [exact Hatt | apply Hh].
    + cbn [snd]. eapply grows_by_le; [| exact Hatt]. apply Nat.le_add_r.
Qed.

Lemma grows_log_then n msg (tool : M pyval) :
  (forall w, grows_by n w (snd (tool w))) ->
  forall w, grows_by n w (snd ((logger_error msg ;; tool) w)).
Proof.
  intros Htool w. rewrite logger_error_run.
  apply (grows_by_trans 0 n w (record_log msg w));
    [apply grows_by_log | apply Htool].
Qed.

Lemma grows_ret n v w : grows_by n w (snd (ret (A := pyval) v w)).
Proof. apply grows_by_refl. Qed.

(** The clause that meets the error of the helper: a [ByteflowAPIError]
    clause, then the catch-all when the [try] has one. *)
Ltac kept :=
  let e := fresh "e" in
  intros e; unfold api_error; destruct (wrapped e);
  [ | unfold attribute_error ]; cbn beta iota;
  [ apply grows_log_then
  | first [ exact I | apply grows_log_then; apply grows_ret ] ].

Ltac keeps_one :=
  intros w; apply (grows_try_request 0); kept;
  try match goal with
      | |- context [status_is ?c ?n] => destruct (status_is c n)
      end;
  apply grows_ret.

Lemma submit_grows input did w : grows_by 1 w (snd (submit input did w)).
Proof.
  unfold submit.
  pose proof (grows_by_attempt w "POST" "/api/call"
                (Some (PDict (payload_of input did)))) as Hatt.
  unfold call_request.
  destruct (remote (sent w) _) as [v | e]; [exact Hatt |].
  destruct (wrapped e); cbn [snd];
    apply (grows_by_trans 1 0 w _ _ Hatt); apply grows_by_log.
Qed.

(** The eight tools, with the number of requests each can append. *)
Lemma tools_grow :
  keeps 1 get_health_status
  /\ keeps 1 get_configuration
  /\ (forall input, keeps 1 (get_call_status input))
  /\ (forall input, keeps 1 (get_call_transcript input))
  /\ keeps 1 get_active_calls
  /\ keeps 3 list_available_dids
  /\ (forall input, keeps 2 (start_new_call input))
  /\ (forall input, keeps 1 (force_disconnect_call input)).
Proof.
  split; [unfold get_health_status; keeps_one |].
  split; [unfold get_configuration; keeps_one |].
  split; [intros input; unfold get_call_status; keeps_one |].
  split; [intros input; unfold get_call_transcript; keeps_one |].
  split; [unfold get_active_calls; keeps_one |].
  split.
  { intros w. unfold list_available_dids.
    apply (grows_try_request 2); kept. intros w1.
    apply (grows_try_request 1); kept. intros w2.
    apply (grows_try_request 0); kept.
    apply grows_ret. }
  split; [| intros input; unfold force_disconnect_call; keeps_one].
  intros input w. rewrite start_new_call_run.
  destruct (negb (Py.truthy (resolve_destination input)));
    [apply grows_by_refl |].
  destruct (negb (Py.truthy (resolve_did_number input))).
  - cbv zeta.
    pose proof (grows_by_attempt w "POST" "/api/validate-and-fetch-dids"
                                 None) as Hatt.
    destruct (negb (Py.truthy (selected_did _ _))).
    + cbn [snd]. eapply grows_by_le; [| exact Hatt]. auto.
    + apply (grows_by_trans 1 1 w _ _ Hatt). apply submit_grows.
  - eapply grows_by_le; [| apply submit_grows]. auto.
Qed.


Lemma keeps_preserves n tool : keeps n tool -> preserves n tool.
Proof.
  intros Hk w. destruct (Hk w) as (Hc & (new & Hs & Hl & _) & Hg).
  split; [exact Hc |]. split; [| exact Hg].
  exists new. split; assumption.
Qed.

Lemma keeps_sends_credentials n tool : keeps n tool -> sends_credentials tool.
Proof.
  intros Hk w req (new' & Hs' & Hin).
  destruct (Hk w) as (_ & (new & Hs & _ & Hf) & _).
  rewrite Hs in Hs'. apply app_inv_head in Hs'. subst new'.
  rewrite Forall_forall in Hf.
  destruct (Hf req Hin) as (method & endpoint & json_data & ->).
  split; [reflexivity |]. split; [reflexivity |].
  split; [exists endpoint; reflexivity | reflexivity].
Qed.

(** X8.  No tool touches the environment or the module globals, removes or
    rewrites a request of the history, or drops a line of the log.  A run
    appends at most one request, except [list_available_dids], which
    appends at most three, and [start_new_call], which appends at most
    two. *)
Theorem tools_keep_configuration :
  preserves 1 get_health_status
  /\ preserves 1 get_configuration
  /\ (forall input, preserves 1 (get_call_status input))
  /\ (forall input, preserves 1 (get_call_transcript input))
  /\ preserves 1 get_active_calls
  /\ preserves 3 list_available_dids
  /\ (forall input, preserves 2 (start_new_call input))
  /\ (forall input, preserves 1 (force_disconnect_call input)).
Proof.
  destruct tools_grow as (H1 & H2 & H3 & H4 & H5 & H6 & H7 & H8).
  split; [exact (keeps_preserves _ _ H1) |].
  split; [exact (keeps_preserves _ _ H2) |].
  split; [intros input; exact (keeps_preserves _ _ (H3 input)) |].
  split; [intros input; exact (keeps_preserves _ _ (H4 input)) |].
  split; [exact (keeps_preserves _ _ H5) |].
  split; [exact (keeps_preserves _ _ H6) |].
  split; [intros input; exact (keeps_preserves _ _ (H7 input)) |].
  intros input; exact (keeps_preserves _ _ (H8 input)).
Qed.

(** X9.  Every request issued by any of the eight tools carries both
    credential headers, built from the key the environment held at the start
    of the run (the placeholder when it held none), next to the JSON content
    type; it has the timeout of 15, no query parameters and a URL under the
    base URL. *)
Theorem tools_send_credentials :
  sends_credentials get_health_status
  /\ sends_credentials get_configuration
  /\ (forall input, sends_credentials (get_call_status input))
  /\ (forall input, sends_credentials (get_call_transcript input))
  /\ sends_credentials get_active_calls
  /\ sends_credentials list_available_dids
  /\ (forall input, sends_credentials (start_new_call input))
  /\ (forall input, sends_credentials (force_disconnect_call input)).
Proof.
  destruct tools_grow as (H1 & H2 & H3 & H4 & H5 & H6 & H7 & H8).
  split; [exact (keeps_sends_credentials _ _ H1) |].
  split; [exact (keeps_sends_credentials _ _ H2) |].
  split; [intros input; exact (keeps_sends_credentials _ _ (H3 input)) |].
  split; [intros input; exact (keeps_sends_credentials _ _ (H4 input)) |].
  split; [exact (keeps_sends_credentials _ _ H5) |].
  split; [exact (keeps_sends_credentials _ _ H6) |].
  split; [intros input; exact (keeps_sends_credentials _ _ (H7 input)) |].
  intros input; exact (keeps_sends_credentials _ _ (H8 input)).
Qed.

(** ** Import and startup *)

Lemma get_set_same {V : Type} key (v : V) d :
  Py.get key (Py.set key v d) = Some v.
Proof.
  induction d as [| [k x] d IH]; cbn.
  - rewrite String.eqb_refl. reflexivity.
  - destruct (String.eqb k key) eqn:E; cbn; rewrite E; [reflexivity | exact IH].
Qed.

Lemma get_set_other {V : Type} key name (v : V) d :
  name <> key -> Py.get name (Py.set key v d) = Py.get name d.
Proof.
  intros Hne. induction d as [| [k x] d IH]; cbn.
  - destruct (String.eqb_spec key name); [congruence | reflexivity].
  - destruct (String.eqb_spec k key); cbn.
    + subst k. destruct (String.eqb_spec key name); [congruence | reflexivity].
    + rewrite IH. reflexivity.
Qed.

(** X10.  After import the environment always holds a non-empty
    BYTEFLOW_API_KEY, the one captured in the global and the one the next
    request will send: the value found when it was set and not empty (the
    environment is then left as it was), the placeholder otherwise.  No
    other variable is touched, no request has been made and nothing is
    logged. *)
Theorem load_module_key (env : list (string * string)) :
  let w := load_module env in
  Py.get "BYTEFLOW_API_KEY" (environ w) = Some (BYTEFLOW_API_KEY w)
  /\ BYTEFLOW_API_KEY w <> ""
  /\ current_key w = BYTEFLOW_API_KEY w
  /\ (forall k, Py.get "BYTEFLOW_API_KEY" env = Some k -> k <> "" ->
                BYTEFLOW_API_KEY w = k /\ environ w = env)
  /\ (Py.get "BYTEFLOW_API_KEY" env = None
      \/ Py.get "BYTEFLOW_API_KEY" env = Some "" ->
      BYTEFLOW_API_KEY w = "dummy_key_for_tests")
  /\ (forall name, name <> "BYTEFLOW_API_KEY" ->
                   Py.get name (environ w) = Py.get name env)
  /\ sent w = [] /\ log w = [].
Proof.
  cbv zeta. unfold load_module, current_key.
  cbn [environ BYTEFLOW_API_KEY sent log].
  assert (Hother : forall name, name <> "BYTEFLOW_API_KEY" ->
            Py.get name (Py.set "BYTEFLOW_API_KEY" "dummy_key_for_tests" env)
            = Py.get name env).
  { intros name Hname. apply get_set_other. exact Hname. }
  destruct (Py.get "BYTEFLOW_API_KEY" env) as [k |] eqn:Hget;
    cbn [Py.of_option Py.truthy Py.str negb].
  - destruct (String.eqb_spec k "") as [-> | Hk]; cbn [negb].
    + rewrite get_set_same.
      split; [reflexivity |]. split; [discriminate |].
      split; [reflexivity |].
      split; [intros k0 Hk0 Hne; congruence |].
      split; [reflexivity |].
      split; [exact Hother |]. split; reflexivity.
    + rewrite Hget.
      split; [reflexivity |]. split; [exact Hk |].
      split; [reflexivity |].
      split; [intros k0 Hk0 _; split; congruence |].
      split; [intros [Hnone | Hempty]; congruence |].
      split; [reflexivity |]. split; reflexivity.
  - rewrite get_set_same.
    split; [reflexivity |]. split; [discriminate |].
    split; [reflexivity |].
    split; [intros k0 Hk0; discriminate Hk0 |].
    split; [reflexivity |].
    split; [exact Hother |]. split; reflexivity.
Qed.

(** X11.  The startup block never passes MCP_SERVER_PORT to the server:
    whenever it reaches [mcp.run] the listener is HTTP on 0.0.0.0, port
    8002, path /mcp, and the one line logged announces the port read from
    the environment, or 8000 when the variable is unset.  When [int]
    rejects the text of the variable the block raises before logging. *)
Theorem main_listens_on_fixed_port (int : string -> result Z) (w : world) :
  (forall l w', main int w = (Ret l, w') ->
                l = mkListener "http" "0.0.0.0" 8002 "/mcp"
                /\ exists port,
                    w' = record_log ("Starting Byteflow MCP Server on port "
                                       ++ Py.str_int port) w
                    /\ match Py.get "MCP_SERVER_PORT" (environ w) with
                       | Some text => int text = Ret port
                       | None => port = 8000
                       end)
  /\ (Py.get "MCP_SERVER_PORT" (environ w) = None ->
      exists w', main int w
                 = (Ret (mkListener "http" "0.0.0.0" 8002 "/mcp"), w'))
  /\ (forall text port,
         Py.get "MCP_SERVER_PORT" (environ w) = Some text ->
         int text = Ret port ->
         exists w', main int w
                    = (Ret (mkListener "http" "0.0.0.0" 8002 "/mcp"), w'))
  /\ (forall text e,
         Py.get "MCP_SERVER_PORT" (environ w) = Some text ->
         int text = Raise e ->
         main int w = (Raise e, w)).
Proof.
  unfold main, bind, logger_info, ret.
  repeat apply conj.
  - intros l w'.
    destruct (Py.get "MCP_SERVER_PORT" (environ w)) as [text |].
    + destruct (int text) as [port | e] eqn:E; intros H; inversion H; subst.
      split; [reflexivity |]. exists port. split; reflexivity.
    + intros H; inversion H; subst.
      split; [reflexivity |]. exists 8000. split; reflexivity.
  - intros ->. eexists. reflexivity.
  - intros text port -> ->. eexists. reflexivity.
  - intros text e -> ->. reflexivity.
Qed.


(** X12.  The fallbacks of [list_available_dids] are outside its catch-all:
    when the step before failed with a wrapped failure and a fallback
    request fails with an [HTTPError] without response, the
    [AttributeError] of the helper leaves the tool as an exception, after
    two requests for the first fallback and three for the second. *)
Theorem list_available_dids_escapes (w : world) :
  let r1 := primary_request w in
  let r2 := fallback1_request w in
  let r3 := fallback2_request w in
  let out := list_available_dids w in
  (forall e1 e2,
      remote (sent w) r1 = Raise e1 -> wrapped e1 = true ->
      remote (sent w ++ [r1])%list r2 = Raise e2 -> wrapped e2 = false ->
      fst out = Raise attribute_error
      /\ sent (snd out) = (sent w ++ [r1; r2])%list)
  /\ (forall e1 e2 e3,
         remote (sent w) r1 = Raise e1 -> wrapped e1 = true ->
         remote (sent w ++ [r1])%list r2 = Raise e2 -> wrapped e2 = true ->
         remote (sent w ++ [r1; r2])%list r3 = Raise e3 -> wrapped e3 = false ->
         fst out = Raise attribute_error
         /\ sent (snd out) = (sent w ++ [r1; r2; r3])%list).
Proof.
  cbv zeta.
  unfold list_available_dids, primary_request, fallback1_request,
    fallback2_request.
  split.
  - intros e1 e2 H1 W1 H2 W2. step_request. rewrite H1. wrapped_by W1.
    rewrite logger_error_run. step_request. rewrite H2. bare_by W2.
    cbn [fst snd]. norm_world. split; reflexivity.
  - intros e1 e2 e3 H1 W1 H2 W2 H3 W3.
    step_request. rewrite H1. wrapped_by W1.
    rewrite logger_error_run. step_request. rewrite H2. wrapped_by W2.
    rewrite logger_error_run. step_request. rewrite H3. bare_by W3.
    cbn [fst snd]. norm_world. split; reflexivity.
Qed.

End Server.

(** ** The theorems at concrete inputs *)

Import Scenario.

(** The chain against a service that recovers on the second request, and
    against one that is down throughout. *)
Lemma list_available_dids_chain_witness :
  (fst (list_available_dids second_succeeds world0)
   = Ret (PList [PStr "+15551112222"])
   /\ sent (snd (list_available_dids second_succeeds world0))
      = (sent world0 ++ [primary_request world0; fallback1_request world0])%list)
  /\ (fst (list_available_dids always_down world0)
      = Ret (PStr ("Failed to list available DIDs: "
                     ++ api_message (ConnectionError "refused after 2")))
      /\ sent (snd (list_available_dids always_down world0))
         = (sent world0 ++ [primary_request world0; fallback1_request world0;
                            fallback2_request world0])%list).
Proof.
  split.
  - apply (proj1 (proj2 (proj2 (list_available_dids_chain second_succeeds
                                                          world0)))
             (HTTPError 500 "boom" "500 Server Error")
             (PList [PStr "+15551112222"]));
      reflexivity.
  - apply (proj1 (proj2 (proj2 (proj2 (proj2
             (list_available_dids_chain always_down world0)))))
             (ConnectionError "refused after 0")
             (ConnectionError "refused after 1")
             (ConnectionError "refused after 2"));
      reflexivity.
Defined.

Example list_available_dids_all_down :
  fst (list_available_dids always_down world0)
  = Ret (PStr "Failed to list available DIDs: Byteflow API Connection Error: refused after 2")
  /\ List.length (sent (snd (list_available_dids always_down world0))) = 3%nat.
Proof. split; reflexivity. Qed.

(** An input with a DID and no destination. *)
Lemma start_new_call_without_destination_witness :
  start_new_call accepts repr_kept no_destination world0
  = (Ret (PStr destination_required), world0)
  /\ sent (snd (start_new_call accepts repr_kept no_destination world0)) = sent world0.
Proof.
  apply (start_new_call_without_destination accepts repr_kept no_destination world0);
    reflexivity.
Defined.

(** Auto-selection from a response listing one DID object. *)
Lemma start_new_call_auto_select_witness :
  Py.truthy (resolve_destination to_number_only) = true
  /\ Py.truthy (resolve_did_number to_number_only) = false
  /\ exists did w1,
      auto_select_did lists_did_object repr_kept (resolve_did_number to_number_only)
                      world0
      = (Ret did, w1)
      /\ did = PStr "+15551112222"
      /\ sent (snd (start_new_call lists_did_object repr_kept to_number_only world0))
         = (sent world0
              ++ [lookup_request world0;
                  call_request world0 (payload_of to_number_only did)])%list.
Proof.
  split; [reflexivity |]. split; [reflexivity |].
  destruct (start_new_call_auto_select lists_did_object repr_kept to_number_only world0
                                       eq_refl eq_refl)
    as (did & w1 & Hauto & _ & _ & _ & Hdict & _ & _ & _ & Hcall).
  exists did, w1.
  assert (Hdid : did = PStr "+15551112222").
  { exact (Hdict [("dids", PList [PDict [("did_number", PStr "+15551112222")]])]
                 [("did_number", PStr "+15551112222")] [] eq_refl eq_refl). }
  split; [exact Hauto |]. split; [exact Hdid |].
  apply Hcall. rewrite Hdid. reflexivity.
Defined.

Example start_new_call_lookup_fails :
  fst (start_new_call lookup_fails repr_kept to_number_only world0)
  = Ret (PStr did_number_required)
  /\ sent (snd (start_new_call lookup_fails repr_kept to_number_only world0))
     = [lookup_request world0].
Proof. split; reflexivity. Qed.

(** The body sent for an input with a script and no metadata. *)
Lemma start_new_call_payload_keys_witness :
  exists payload,
    r_method (call_request world0 (payload_of with_script (PStr "08000000000")))
    = "POST"
    /\ r_json (call_request world0
                            (payload_of with_script (PStr "08000000000")))
       = Some (PDict payload)
    /\ Py.keys payload
       = ["destination"; "did_number"; "ai_client"; "system_prompt";
          "greeting_text"; "script_id"]
    /\ Py.get "script_id" payload = Some (PStr "s-1")
    /\ Py.get "metadata" payload = None.
Proof.
  apply (start_new_call_payload_keys accepts repr_kept with_script world0).
  - exists [call_request world0 (payload_of with_script (PStr "08000000000"))].
    split; [reflexivity | left; reflexivity].
  - reflexivity.
Defined.

(** Non-empty texts reach the body as given. *)
Lemma start_new_call_defaults_witness :
  exists payload,
    r_json (call_request world0 (payload_of with_script (PStr "08000000000")))
    = Some (PDict payload)
    /\ Py.get "ai_client" payload = Some (PStr "client2")
    /\ Py.get "system_prompt" payload = Some (PStr "p")
    /\ Py.get "greeting_text" payload = Some (PStr "g").
Proof.
  apply (start_new_call_defaults accepts repr_kept with_script world0).
  - exists [call_request world0 (payload_of with_script (PStr "08000000000"))].
    split; [reflexivity | left; reflexivity].
  - reflexivity.
Defined.

(** C5 as the specification states it fails: with [ai_client],
    [system_prompt] and [greeting_text] given as empty strings, the body
    sent to /api/call carries the three defaults, not the empty strings. *)
Lemma empty_strings_replaced_by_defaults :
  exists payload,
    sent (snd (start_new_call accepts repr_kept empty_texts world0))
    = [call_request world0 payload]
    /\ ai_client empty_texts = Some ""
    /\ system_prompt empty_texts = ""
    /\ greeting_text empty_texts = ""
    /\ Py.get "ai_client" payload = Some (PStr "client1")
    /\ Py.get "system_prompt" payload
       = Some (PStr "You are an AI assistant helping with a phone call.")
    /\ Py.get "greeting_text" payload
       = Some (PStr "Hello! This is an automated call.")
    /\ Py.get "ai_client" payload <> Some (PStr "")
    /\ Py.get "system_prompt" payload
       <> Some (PStr (system_prompt empty_texts))
    /\ Py.get "greeting_text" payload
       <> Some (PStr (greeting_text empty_texts)).
Proof.
  exists (payload_of empty_texts (PStr "08000000000")).
  repeat split; try reflexivity; discriminate.
Qed.

(** C7 as the specification states it fails: when the lookup answers with
    the list [["+1555..."]] itself, which is no dict with a ["dids"] entry,
    no DID is selected, the tool returns the did_number-required string and
    the lookup is its only request. *)
Lemma bare_did_list_selects_nothing :
  bare_list [] (lookup_request world0) = Ret (PList [PStr "+1555..."])
  /\ start_new_call bare_list repr_kept example_input world0
     = (Ret (PStr did_number_required),
        record_request (lookup_request world0) world0)
  /\ sent (snd (start_new_call bare_list repr_kept example_input world0))
     = [lookup_request world0]
  /\ forall payload,
      ~ In (call_request world0 payload)
           (sent (snd (start_new_call bare_list repr_kept example_input
                                      world0))).
Proof.
  split; [reflexivity |]. split; [reflexivity |]. split; [reflexivity |].
  intros payload [H | []]. discriminate H.
Qed.

(** The example against a service listing the DID as a plain string. *)
Lemma start_new_call_example_witness :
  exists payload req,
    sent (snd (start_new_call lists_did_string repr_kept example_input world0))
    = (sent world0 ++ [lookup_request world0; req])%list
    /\ r_method req = "POST"
    /\ r_url req = BASE_URL world0 ++ "/api/call"
    /\ r_json req = Some (PDict payload)
    /\ Py.get "destination" payload = Some (PStr "08069256212")
    /\ Py.get "did_number" payload = Some (PStr "+1555...")
    /\ Py.get "ai_client" payload = Some (PStr "client1").
Proof.
  apply (start_new_call_example lists_did_string repr_kept world0
           [("dids", PList [PStr "+1555..."])]); reflexivity.
Defined.

(** Direct fields and aliases all given, the direct fields not empty. *)
Lemma direct_field_wins_witness :
  resolve_destination both_given = PStr "08069256212"
  /\ resolve_did_number both_given = PStr "08000000000".
Proof.
  destruct (direct_field_wins accepts repr_kept both_given world0
                              (call_request world0 [])) as [Hdest Hdid].
  split.
  - refine (proj1 (Hdest "08069256212" "08011111111" eq_refl eq_refl _)).
    discriminate.
  - refine (proj1 (Hdid "08000000000" "08022222222" eq_refl eq_refl _)).
    discriminate.
Defined.

(** C8 as the specification states it fails: with [destination] and
    [did_number] given as empty strings next to their aliases, the resolved
    values and the body sent to /api/call are the aliases. *)
Lemma empty_direct_field_loses :
  destination empty_direct = Some ""
  /\ to_number empty_direct = Some "08011111111"
  /\ resolve_destination empty_direct = PStr "08011111111"
  /\ resolve_destination empty_direct <> PStr ""
  /\ did_number empty_direct = Some ""
  /\ from_number empty_direct = Some "08022222222"
  /\ resolve_did_number empty_direct = PStr "08022222222"
  /\ resolve_did_number empty_direct <> PStr ""
  /\ exists payload,
      sent (snd (start_new_call accepts repr_kept empty_direct world0))
      = [call_request world0 payload]
      /\ Py.get "destination" payload = Some (PStr "08011111111")
      /\ Py.get "did_number" payload = Some (PStr "08022222222").
Proof.
  repeat (split; [first [reflexivity | discriminate] |]).
  exists (payload_of empty_direct (PStr "08022222222")).
  repeat split; reflexivity.
Qed.

(** A lookup answered with a bare list, which is no dict, selects nothing. *)
Lemma start_new_call_no_did_selected_witness :
  fst (start_new_call bare_list repr_kept to_number_only world0)
  = Ret (PStr did_number_required)
  /\ sent (snd (start_new_call bare_list repr_kept to_number_only world0))
     = (sent world0 ++ [lookup_request world0])%list.
Proof.
  apply (start_new_call_no_did_selected bare_list repr_kept to_number_only world0
           (PList [PStr "+1555..."])); try reflexivity.
  left. intros d l H. discriminate H.
Defined.

Example start_new_call_entry_without_did :
  let service := lookup_returns (PDict [("dids", PList [PDict []])]) in
  fst (start_new_call service repr_kept to_number_only world0)
  = Ret (PStr did_number_required)
  /\ sent (snd (start_new_call service repr_kept to_number_only world0))
     = [lookup_request world0].
Proof. split; reflexivity. Qed.



(** An [HTTPError] without response on the only request of a tool is met by
    its catch-all clause. *)
Example get_health_status_catch_all :
  fst (get_health_status without_response world0)
  = Ret (PStr "An unexpected error occurred: 'NoneType' object has no attribute 'status_code'")
  /\ List.length (sent (snd (get_health_status without_response world0)))
     = 1%nat
  /\ List.length (log (snd (get_health_status without_response world0)))
     = 1%nat.
Proof. repeat split; reflexivity. Qed.

(** A key put in the environment after import is the one the next request
    carries; the global captured at import keeps the placeholder. *)
Example credential_read_at_call_time :
  let w := {| environ := [("BYTEFLOW_API_KEY", "rotated")];
              BYTEFLOW_API_KEY := BYTEFLOW_API_KEY world0;
              BASE_URL := BASE_URL world0;
              sent := []; log := [] |} in
  BYTEFLOW_API_KEY w = "dummy_key_for_tests"
  /\ map r_headers
         (sent (snd (_make_request accepts "GET" "/api/health" None None w)))
     = [[("Content-Type", "application/json");
         ("Authorization", "Bearer rotated");
         ("X-API-Key", "rotated")]].
Proof. split; reflexivity. Qed.

Example placeholder_when_key_missing :
  let w := {| environ := []; BYTEFLOW_API_KEY := "dummy_key_for_tests";
              BASE_URL := "https://apidoc.byteflow.bot";
              sent := []; log := [] |} in
  map r_headers
      (sent (snd (_make_request accepts "GET" "/api/health" None None w)))
  = [[("Content-Type", "application/json");
      ("Authorization", "Bearer dummy_key_for_tests");
      ("X-API-Key", "dummy_key_for_tests")]].
Proof. reflexivity. Qed.

Example str_int_404 : Py.str_int 404 = "404".
Proof. reflexivity. Qed.

Example str_list :
  Py.str repr_kept (PList [PInt (-3); PStr "a'b"; PDict [("k", PNone)]])
  = "[-3, " ++ String Py.dquote ("a'b" ++ String Py.dquote ", {'k': None}]").
Proof. reflexivity. Qed.

(** ** The further properties at concrete inputs *)

(** A 422 from the service, as [_make_request] reports it. *)
Lemma _make_request_failure_witness :
  exists message status_code response_text line,
    _make_request rejects "POST" "/api/call" None None world0
    = (Raise (ByteflowAPIError message status_code response_text),
       record_log line
         (record_request (request_of world0 "POST" "/api/call" None None)
                         world0))
    /\ (forall c t,
           status_code = Some c /\ response_text = Some t
           <-> exists msg, HTTPError 422 "bad number" "422 Client Error"
                           = HTTPError c t msg)
    /\ (status_code = None <-> response_text = None).
Proof.
  apply (proj1 (_make_request_failure rejects "POST" "/api/call" None None
                  world0 (HTTPError 422 "bad number" "422 Client Error")
                  eq_refl)).
  reflexivity.
Defined.

(** The health check against a service that is down. *)
Lemma plain_tools_outcome_witness :
  fst (get_health_status always_down world0)
  = Ret (PStr ("Failed to get health status: "
                 ++ api_message (ConnectionError "refused after 0"))).
Proof.
  apply (proj1 (proj2 (proj2 (proj1 (plain_tools_outcome always_down
                                                          world0))))).
  - reflexivity.
  - reflexivity.
Defined.

(** A call the service does not know. *)
Lemma get_call_status_outcome_witness :
  fst (get_call_status not_found some_call world0)
  = Ret (PStr "Call with ID 'c1' not found. Please check the call ID.").
Proof.
  apply (proj1 (proj2 (proj2 (get_call_status_outcome not_found some_call
                                                      world0)))
           "no such call" "404 Client Error").
  reflexivity.
Defined.

Lemma get_call_transcript_outcome_witness :
  fst (get_call_transcript rejects some_call world0)
  = Ret (PStr ("Failed to get call transcript for 'c1': "
                 ++ api_message
                      (HTTPError 422 "bad number" "422 Client Error"))).
Proof.
  apply (proj1 (proj2 (proj2 (proj2
           (get_call_transcript_outcome rejects some_call world0))))).
  - reflexivity.
  - reflexivity.
  - discriminate.
Defined.

Lemma force_disconnect_call_outcome_witness :
  force_disconnect_call accepts some_call world0
  = (Ret (PDict [("call_id", PStr "c1"); ("status", PStr "initiated")]),
     record_request
       (request_of world0 "POST" "/api/call/c1/force-disconnect" None None)
       world0).
Proof.
  apply (proj1 (proj2 (force_disconnect_call_outcome accepts some_call
                                                     world0))).
  reflexivity.
Defined.

(** An input with its own DID: one request, no lookup. *)
Lemma start_new_call_with_did_witness :
  sent (snd (start_new_call accepts repr_kept direct_only world0))
  = (sent world0
       ++ [call_request world0
             (payload_of direct_only (resolve_did_number direct_only))])%list
  /\ Py.get "did_number"
            (payload_of direct_only (resolve_did_number direct_only))
     = Some (resolve_did_number direct_only)
  /\ (forall v,
         accepts (sent world0)
                 (call_request world0
                    (payload_of direct_only (resolve_did_number direct_only)))
         = Ret v ->
         start_new_call accepts repr_kept direct_only world0
         = (Ret v,
            record_request
              (call_request world0
                 (payload_of direct_only (resolve_did_number direct_only)))
              world0)).
Proof.
  apply (start_new_call_with_did accepts repr_kept direct_only world0); reflexivity.
Defined.

(** A rejected call quotes the body, here after an auto-selected DID; a
    refused connection names [to_number], which this input does not have. *)
Lemma start_new_call_failure_message_witness :
  fst (start_new_call lists_then_rejects repr_kept to_number_only world0)
  = Ret (PStr "Failed to start call due to invalid input: bad number. Please check the provided numbers and parameters.")
  /\ fst (start_new_call always_down repr_kept direct_only world0)
     = Ret (PStr ("Failed to start call to 'None': "
                    ++ api_message (ConnectionError "refused after 0"))).
Proof.
  split.
  - apply (proj1 (start_new_call_failure_message
                    lists_then_rejects repr_kept to_number_only world0
                    (HTTPError 422 "bad number" "422 Client Error")
                    eq_refl eq_refl eq_refl)
             422 "bad number" "422 Client Error").
    + reflexivity.
    + right. reflexivity.
  - apply (proj1 (proj2 (start_new_call_failure_message
                           always_down repr_kept direct_only world0
                           (ConnectionError "refused after 0")
                           eq_refl eq_refl eq_refl)));
      [reflexivity | discriminate | discriminate].
Defined.

(** Import with a key already set, and with none. *)
Lemma load_module_key_witness :
  (BYTEFLOW_API_KEY (load_module [("BYTEFLOW_API_KEY", "secret")]) = "secret"
   /\ environ (load_module [("BYTEFLOW_API_KEY", "secret")])
      = [("BYTEFLOW_API_KEY", "secret")])
  /\ BYTEFLOW_API_KEY (load_module [("HOME", "/root")])
     = "dummy_key_for_tests".
Proof.
  split.
  - apply (proj1 (proj2 (proj2 (proj2
             (load_module_key [("BYTEFLOW_API_KEY", "secret")]))))
             "secret").
    + reflexivity.
    + discriminate.
  - apply (proj1 (proj2 (proj2 (proj2 (proj2
             (load_module_key [("HOME", "/root")])))))).
    left. reflexivity.
Defined.

(** Startup with MCP_SERVER_PORT read as 9000, and with a text [int]
    rejects. *)
Lemma main_listens_on_fixed_port_witness :
  (exists w', main int_9000 (load_module [("MCP_SERVER_PORT", "9000")])
              = (Ret (mkListener "http" "0.0.0.0" 8002 "/mcp"), w'))
  /\ main int_fails (load_module [("MCP_SERVER_PORT", "auto")])
     = (Raise (OtherException
                 "invalid literal for int() with base 10: 'auto'"),
        load_module [("MCP_SERVER_PORT", "auto")]).
Proof.
  split.
  - apply (proj1 (proj2 (proj2
             (main_listens_on_fixed_port
                int_9000 (load_module [("MCP_SERVER_PORT", "9000")]))))
             "9000" 9000); reflexivity.
  - apply (proj2 (proj2 (proj2
             (main_listens_on_fixed_port
                int_fails (load_module [("MCP_SERVER_PORT", "auto")]))))
             "auto"); reflexivity.
Defined.

Example main_announces_another_port :
  log (snd (main int_9000 (load_module [("MCP_SERVER_PORT", "9000")])))
  = ["Starting Byteflow MCP Server on port 9000"]
  /\ fst (main int_9000 (load_module [("MCP_SERVER_PORT", "9000")]))
     = Ret (mkListener "http" "0.0.0.0" 8002 "/mcp").
Proof. split; reflexivity. Qed.


(** A refused primary lookup followed by a fallback whose [HTTPError] has no
    response. *)
Lemma list_available_dids_escapes_witness :
  fst (list_available_dids fallback_without_response world0)
  = Raise attribute_error
  /\ sent (snd (list_available_dids fallback_without_response world0))
     = (sent world0 ++ [primary_request world0; fallback1_request world0])%list.
Proof.
  apply (proj1 (list_available_dids_escapes fallback_without_response world0)
           (ConnectionError "refused")
           (HTTPErrorNoResponse "502 Server Error"));
    reflexivity.
Defined.
